(** * Session stores of miaomiao3/session

    A shallow embedding of the three Go packages of the repository:

    - [Redistore]  : src/redis/redistore.go  (package redistore)
    - [Mongostore] : src/unnamed/part_001    (package mongostore)
    - [Sessions]   : src/unnamed/part_000    (package sessions, the gin wrapper)

    Go pointers to structs that are threaded through a call are modelled by
    passing the struct in and returning the updated struct.  A Go [error]
    result is an [option error] ([None] is [nil]).  Panics and the state of
    the outside world (backend servers, entropy, clock) are carried by a small
    state-and-panic monad.

    Left out: [RediStore.SetMaxAge] and the [Get] methods of the stores
    (they go through the codecs' and the registry's internals), and in the
    wrapper [AddFlash], [Flashes], [SessionMiddware] and [Default]. *)

From Stdlib Require Import ZArith String Ascii List Bool Lia.
From stdpp Require Import base option gmap strings list.

Import ListNotations.
Local Open Scope string_scope.
Local Open Scope list_scope.

(** ** Go runtime: errors, panics, dynamic values *)

(** The error values that the three packages create or receive. *)
Inductive error : Type :=
| ErrNoCookie                 (* http.ErrNoCookie *)
| ErrCodec (msg : string)     (* any error of securecookie *)
| RedisNil                    (* redis.Nil: the reply to GET on a missing key *)
| ErrNet (msg : string)       (* the backend cannot be reached *)
| ErrClosed                   (* the client was closed *)
| ErrTooBig                   (* "SessionStore: the value to store is too big" *)
| ErrInvalidId                (* mongostore.ErrInvalidId *)
| ErrInvalidModified          (* "mongostore: invalid modified value" *)
| ErrNotFound.                (* mgo.ErrNotFound *)

#[global] Instance error_eq_dec : EqDecision error.
Proof. solve_decision. Defined.

Inductive panic : Type :=
| PanicString (msg : string)          (* panic("...") *)
| IndexOutOfRange (i len : nat)       (* runtime error: index out of range *)
| NilDereference.                     (* runtime error: nil pointer dereference *)

#[global] Instance panic_eq_dec : EqDecision panic.
Proof. solve_decision. Defined.

(** A call that returns [(value, error)] where the value is meaningful only
    when the error is nil. *)
Inductive try (A : Type) : Type :=
| Done (a : A)
| Fail (e : error).
Arguments Done {A} a.
Arguments Fail {A} e.

(** [interface{}] values stored in a session, as a tagged variant.
    [VTime] is a [time.Time], in seconds. *)
Inductive value : Type :=
| VString (s : string)
| VInt (n : Z)
| VBool (b : bool)
| VTime (t : Z).

#[global] Instance value_eq_dec : EqDecision value.
Proof. solve_decision. Defined.

Definition value_code (v : value) : string + Z + (bool + Z) :=
  match v with
  | VString s => inl (inl s)
  | VInt n => inl (inr n)
  | VBool b => inr (inl b)
  | VTime t => inr (inr t)
  end.

Definition value_decode (c : string + Z + (bool + Z)) : value :=
  match c with
  | inl (inl s) => VString s
  | inl (inr n) => VInt n
  | inr (inl b) => VBool b
  | inr (inr t) => VTime t
  end.

#[global] Instance value_countable : Countable value.
Proof.
  apply (inj_countable' value_code value_decode).
  intros []; reflexivity.
Defined.

(** [err != nil] *)
Definition notNil (err : option error) : bool :=
  match err with
  | Some _ => true
  | None => false
  end.

(** [int64] wrap-around, for [time.Duration] arithmetic. *)
Definition wrap64 (z : Z) : Z :=
  ((z + 2 ^ 63) mod 2 ^ 64 - 2 ^ 63)%Z.

(** ** The state-and-panic monad *)

Inductive res (W A : Type) : Type :=
| Ret (a : A) (w : W)
| Panicked (p : panic) (w : W).
Arguments Ret {W A} a w.
Arguments Panicked {W A} p w.

Definition M (W A : Type) : Type := W -> res W A.

Definition ret {W A} (a : A) : M W A := fun w => Ret a w.

Definition throw {W A} (p : panic) : M W A := fun w => Panicked p w.

Definition bind {W A B} (c : M W A) (k : A -> M W B) : M W B :=
  fun w => match c w with
           | Ret a w' => k a w'
           | Panicked p w' => Panicked p w'
           end.

Declare Scope go_scope.
Delimit Scope go_scope with go.
Notation "'let*' x ':=' c 'in' k" := (bind c (fun x => k))
  (at level 10, x pattern, c at level 100, k at level 200) : go_scope.
Local Open Scope go_scope.

(** Case analysis on the computation that a [bind] in the goal runs first. *)
Tactic Notation "case_res" "as" simple_intropattern(a) simple_intropattern(w) :=
  match goal with
  | |- context [match ?c with Ret _ _ => _ | Panicked _ _ => _ end] =>
      destruct c as [a w | ? w]
  end.

(** The world a computation ended in, whether it returned or panicked. *)
Definition final {W A} (r : res W A) : W :=
  match r with
  | Ret _ w => w
  | Panicked _ w => w
  end.

(** ** gorilla/sessions, gorilla/securecookie and net/http

    The parts of the libraries that the stores call. *)
Module gorilla.

Record Options : Type := mkOptions {
  Path : string;
  Domain : string;
  MaxAge : Z;
  Secure : bool;
  HttpOnly : bool
}.

Definition zeroOptions : Options := mkOptions "" "" 0 false false.

(** [sessions.Session]. *)
Record Session : Type := mkSession {
  ID : string;
  Values : gmap value value;
  SessionOptions : Options;   (* the field Options *)
  IsNew : bool;
  Name : string
}.

Definition with_ID (id : string) (s : Session) : Session :=
  mkSession id (Values s) (SessionOptions s) (IsNew s) (Name s).
Definition with_Values (v : gmap value value) (s : Session) : Session :=
  mkSession (ID s) v (SessionOptions s) (IsNew s) (Name s).
Definition with_Options (o : Options) (s : Session) : Session :=
  mkSession (ID s) (Values s) o (IsNew s) (Name s).
Definition with_IsNew (b : bool) (s : Session) : Session :=
  mkSession (ID s) (Values s) (SessionOptions s) b (Name s).

(** [sessions.NewSession(store, name)]: empty values, IsNew set. *)
Definition NewSession (name : string) : Session :=
  mkSession "" ∅ zeroOptions true name.

(** [http.Cookie], without the [Expires] date that [sessions.NewCookie]
    derives from [MaxAge] and the clock. *)
Record Cookie : Type := mkCookie {
  CName : string;
  CValue : string;
  CPath : string;
  CDomain : string;
  CMaxAge : Z;
  CSecure : bool;
  CHttpOnly : bool
}.

Definition NewCookie (name val : string) (o : Options) : Cookie :=
  mkCookie name val (Path o) (Domain o) (MaxAge o) (Secure o) (HttpOnly o).

(** A request, as far as the stores look at it: its parsed cookies. *)
Record Request : Type := mkRequest {
  Cookies : list (string * string)
}.

(** [r.Cookie(name)]: the first cookie of that name. *)
Fixpoint lookupCookie (name : string) (cs : list (string * string)) : try string :=
  match cs with
  | [] => Fail ErrNoCookie
  | (n, v) :: rest => if String.eqb n name then Done v else lookupCookie name rest
  end.

Definition RequestCookie (r : Request) (name : string) : try string :=
  lookupCookie name (Cookies r).

(** A response writer, as far as the stores touch it: the cookies handed
    to [http.SetCookie], in order. *)
Definition ResponseWriter : Type := list Cookie.

Definition SetCookie (w : ResponseWriter) (c : Cookie) : ResponseWriter :=
  w ++ [c].

(** [[]securecookie.Codec] behind [EncodeMulti] and [DecodeMulti], at the
    two types the stores use them at: the session id (a string) and the
    values map.  A failing decode writes nothing to its destination. *)
Record Codecs : Type := mkCodecs {
  EncodeMultiID : string -> string -> try string;
  DecodeMultiID : string -> string -> try string;
  EncodeMultiValues : string -> gmap value value -> try string;
  DecodeMultiValues : string -> string -> try (gmap value value)
}.

(** What a call of a store's [Save] leaves behind besides the session:
    the response, the error, the world; [None] when it panicked. *)
Definition effects {W : Type} (r : res W (ResponseWriter * Session * option error))
  : option (ResponseWriter * option error) * W :=
  match r with
  | Ret (w, _, e) world => (Some (w, e), world)
  | Panicked _ world => (None, world)
  end.

End gorilla.

(** ** package redistore (src/redis/redistore.go) *)
Module Redistore.
Import gorilla.

(** *** go-redis, as the store uses it *)

(** The calls the store makes on a client. *)
Inductive command : Type :=
| PING
| GET (key : string)
| SET (key val : string) (expiration : Z)
| DEL (key : string)
| CLOSE.

(** A redis deployment together with the client connected to it.
    [failure = Some e] is a deployment that cannot be reached: every
    command fails with [e].  [calls] records every call made on the client,
    in order. *)
Record Server : Type := mkServer {
  failure : option error;
  closed : bool;
  keys : gmap string (string * Z);   (* value and expiration (ns) *)
  calls : list command
}.

Definition called (c : command) (sv : Server) : Server :=
  mkServer (failure sv) (closed sv) (keys sv) (calls sv ++ [c]).

Definition with_keys (k : gmap string (string * Z)) (sv : Server) : Server :=
  mkServer (failure sv) (closed sv) k (calls sv).

Definition unavailable (sv : Server) : option error :=
  if closed sv then Some ErrClosed else failure sv.

(** [Ping().Result()] *)
Definition cmdPing (sv : Server) : (string * option error) * Server :=
  match unavailable sv with
  | Some e => (("", Some e), called PING sv)
  | None => (("PONG", None), called PING sv)
  end.

(** [Get(key).Result()]: a missing key answers [("", redis.Nil)]. *)
Definition cmdGet (key : string) (sv : Server) : (string * option error) * Server :=
  match unavailable sv with
  | Some e => (("", Some e), called (GET key) sv)
  | None =>
      match keys sv !! key with
      | Some (v, _) => ((v, None), called (GET key) sv)
      | None => (("", Some RedisNil), called (GET key) sv)
      end
  end.

(** [Set(key, val, expiration).Result()] *)
Definition cmdSet (key val : string) (expiration : Z) (sv : Server)
  : (string * option error) * Server :=
  match unavailable sv with
  | Some e => (("", Some e), called (SET key val expiration) sv)
  | None =>
      (("OK", None),
       called (SET key val expiration) (with_keys (<[key := (val, expiration)]> (keys sv)) sv))
  end.

(** [Del(key).Result()]: the number of keys removed. *)
Definition cmdDel (key : string) (sv : Server) : (Z * option error) * Server :=
  match unavailable sv with
  | Some e => ((0%Z, Some e), called (DEL key) sv)
  | None =>
      ((match keys sv !! key with Some _ => 1%Z | None => 0%Z end, None),
       called (DEL key) (with_keys (delete key (keys sv)) sv))
  end.

(** [Close()]: closing twice is an error. *)
Definition cmdClose (sv : Server) : option error * Server :=
  if closed sv then (Some ErrClosed, called CLOSE sv)
  else (None, called CLOSE (mkServer (failure sv) true (keys sv) (calls sv))).

(** The world outside the store: the deployment a single-node client talks
    to, the one a cluster client talks to, and the future results of
    [strings.TrimRight(base32.StdEncoding.EncodeToString(
    securecookie.GenerateRandomKey(32)), "=")]. *)
Record World : Type := mkWorld {
  node : Server;
  cluster : Server;
  entropy : list string
}.

Record ClientOptions : Type := mkClientOptions {
  Addr : string;
  PoolSize : Z;
  DialTimeout : Z;     (* seconds *)
  Password : string
}.

Record ClusterOptions : Type := mkClusterOptions {
  Addrs : list string;
  ClusterPoolSize : Z;
  ClusterDialTimeout : Z;
  ClusterPassword : string
}.

(** A method call through [*redis.Client]: a nil pointer panics. *)
Definition onClient {A} (c : option ClientOptions) (f : Server -> A * Server) : M World A :=
  fun w =>
    match c with
    | None => Panicked NilDereference w
    | Some _ => let '(a, sv) := f (node w) in Ret a (mkWorld sv (cluster w) (entropy w))
    end.

(** A method call through [*redis.ClusterClient]. *)
Definition onClusterClient {A} (c : option ClusterOptions) (f : Server -> A * Server)
  : M World A :=
  fun w =>
    match c with
    | None => Panicked NilDereference w
    | Some _ => let '(a, sv) := f (cluster w) in Ret a (mkWorld (node w) sv (entropy w))
    end.

(** The next random session id; the empty string when the random source
    fails. *)
Definition generateID : M World string :=
  fun w =>
    match entropy w with
    | [] => Ret "" w
    | id :: rest => Ret id (mkWorld (node w) (cluster w) rest)
    end.

(** *** The store *)

Definition sessionExpire : Z := 86400 * 30.

Record RediStore : Type := mkRediStore {
  Client : option ClientOptions;
  ClusterClient : option ClusterOptions;
  Codecs : gorilla.Codecs;
  Options : gorilla.Options;
  DefaultMaxAge : Z;
  maxLength : Z;
  keyPrefix : string;
  IsCluster : bool
}.

Definition SetMaxLength (s : RediStore) (l : Z) : RediStore :=
  if (0 <=? l)%Z then
    mkRediStore (Client s) (ClusterClient s) (Codecs s) (Options s) (DefaultMaxAge s)
                l (keyPrefix s) (IsCluster s)
  else s.

Definition SetKeyPrefix (s : RediStore) (p : string) : RediStore :=
  mkRediStore (Client s) (ClusterClient s) (Codecs s) (Options s) (DefaultMaxAge s)
              (maxLength s) p (IsCluster s).

(** [address[0]] *)
Definition index0 (address : list string) : M World string :=
  match address with
  | [] => throw (IndexOutOfRange 0 0)
  | a :: _ => ret a
  end.

Definition ping (s : RediStore) : M World (bool * option error) :=
  let* (data, err) :=
    (if IsCluster s then onClusterClient (ClusterClient s) cmdPing
     else onClient (Client s) cmdPing) in
  if notNil err || String.eqb data "" then ret (false, err)
  else ret (String.eqb data "PONG", None).

Section Construction.

(** [securecookie.CodecsFromPairs] *)
Variable CodecsFromPairs : list string -> gorilla.Codecs.

Definition NewRediStore (isCluster : bool) (size : Z) (address : list string)
           (password : string) (keyPairs : list string)
  : M World (RediStore * option error) :=
  let* rs :=
    (if isCluster then
       if (length address <? 6)%nat then
         throw (PanicString "cluster mode. redis cluster address error. count < 6")
       else
         let client := mkClusterOptions address size 10 password in
         ret (mkRediStore None (Some client) (CodecsFromPairs keyPairs)
                          (mkOptions "/" "" sessionExpire false false)
                          (60 * 30) 4096 "session_" true)
     else
       if (1 <? length address)%nat then
         throw (PanicString "single mode. redis address error. count > 1")
       else
         let* addr := index0 address in
         let client := mkClientOptions addr size 10 password in
         ret (mkRediStore (Some client) None (CodecsFromPairs keyPairs)
                          (mkOptions "/" "" sessionExpire false false)
                          (60 * 30) 4096 "session_" false)) in
  let* (_, err) := ping rs in
  ret (rs, err).

End Construction.

Definition Close (s : RediStore) : M World (option error) :=
  onClient (Client s) cmdClose.

(** [time.Duration(age) * time.Second], in nanoseconds. *)
Definition seconds (age : Z) : Z := wrap64 (wrap64 age * 1000000000).

Definition save (s : RediStore) (session : Session) : M World (option error) :=
  match EncodeMultiValues (Codecs s) (Name session) (Values session) with
  | Fail e => ret (Some e)
  | Done encoded =>
      if negb (maxLength s =? 0)%Z && (maxLength s <? Z.of_nat (String.length encoded))%Z
      then ret (Some ErrTooBig)
      else
        let age := MaxAge (SessionOptions session) in
        let age := if (age =? 0)%Z then DefaultMaxAge s else age in
        let* (_, err) :=
          (if IsCluster s then
             onClusterClient (ClusterClient s)
               (cmdSet (keyPrefix s +:+ ID session) encoded (seconds age))
           else
             onClient (Client s)
               (cmdSet (keyPrefix s +:+ ID session) encoded (seconds age))) in
        ret err
  end.

(** [load] writes the decoded values through [&session.Values]: the decoder
    adds the decoded entries to the map that is there. *)
Definition load (s : RediStore) (session : Session) : M World (Session * option error) :=
  let* (data, err) :=
    (if IsCluster s then
       onClusterClient (ClusterClient s) (cmdGet (keyPrefix s +:+ ID session))
     else
       onClient (Client s) (cmdGet (keyPrefix s +:+ ID session))) in
  if String.eqb data "" then ret (session, None)
  else
    match DecodeMultiValues (Codecs s) (Name session) data with
    | Fail e => ret (session, Some e)
    | Done v => ret (with_Values (v ∪ Values session) session, None)
    end.

Definition delete (s : RediStore) (session : Session) : M World (option error) :=
  let* (_, err) :=
    (if IsCluster s then
       onClusterClient (ClusterClient s) (cmdDel (keyPrefix s +:+ ID session))
     else
       onClient (Client s) (cmdDel (keyPrefix s +:+ ID session))) in
  ret err.

Definition New (s : RediStore) (r : Request) (name : string)
  : M World (Session * option error) :=
  let session := NewSession name in
  let session := with_Options (Options s) session in
  let session := with_IsNew true session in
  match RequestCookie r name with
  | Done c =>
      match DecodeMultiID (Codecs s) name c with
      | Fail e => ret (session, Some e)
      | Done id =>
          let session := with_ID id session in
          let* (session, err) := load s session in
          ret (with_IsNew (negb (negb (notNil err))) session, err)
      end
  | Fail _ => ret (session, None)
  end.

Definition Save (s : RediStore) (r : Request) (w : ResponseWriter) (session : Session)
  : M World (ResponseWriter * Session * option error) :=
  if (MaxAge (SessionOptions session) <? 0)%Z then
    let* err := delete s session in
    match err with
    | Some e => ret (w, session, Some e)
    | None =>
        ret (SetCookie w (NewCookie (Name session) "" (SessionOptions session)),
             session, None)
    end
  else
    let* session :=
      (if String.eqb (ID session) "" then
         let* id := generateID in ret (with_ID id session)
       else ret session) in
    let* err := save s session in
    match err with
    | Some e => ret (w, session, Some e)
    | None =>
        match EncodeMultiID (Codecs s) (Name session) (ID session) with
        | Fail e => ret (w, session, Some e)
        | Done encoded =>
            ret (SetCookie w (NewCookie (Name session) encoded (SessionOptions session)),
                 session, None)
        end
    end.

(** *** Vocabulary of the statements *)

(** The client pointer that the store's mode selects is set, as in every
    store [NewRediStore] builds. *)
Definition connected (s : RediStore) : bool :=
  if IsCluster s then
    match ClusterClient s with Some _ => true | None => false end
  else
    match Client s with Some _ => true | None => false end.

(** The deployment that the store's commands reach. *)
Definition backend (s : RediStore) (w : World) : Server :=
  if IsCluster s then cluster w else node w.

Definition put_backend (s : RediStore) (sv : Server) (w : World) : World :=
  if IsCluster s then mkWorld (node w) sv (entropy w)
  else mkWorld sv (cluster w) (entropy w).

(** The session [New] starts from. *)
Definition blank (s : RediStore) (name : string) : Session :=
  with_IsNew true (with_Options (Options s) (NewSession name)).

(** The expiration [save] stores a record with. *)
Definition ttl (s : RediStore) (session : Session) : Z :=
  seconds (if (MaxAge (SessionOptions session) =? 0)%Z then DefaultMaxAge s
           else MaxAge (SessionOptions session)).

(** A panic raised by the constructor's own address-count checks. *)
Definition configuration_error (p : panic) : bool :=
  match p with
  | PanicString _ => true
  | _ => false
  end.

End Redistore.

(** ** package mongostore (src/unnamed/part_001) *)
Module Mongostore.
Import gorilla.

(** *** encoding/hex and bson.ObjectId *)

Definition fromHexChar (c : ascii) : option N :=
  let n := N_of_ascii c in
  if (48 <=? n)%N && (n <=? 57)%N then Some (n - 48)%N
  else if (97 <=? n)%N && (n <=? 102)%N then Some (n - 97 + 10)%N
  else if (65 <=? n)%N && (n <=? 70)%N then Some (n - 65 + 10)%N
  else None.

(** [hex.DecodeString]; [None] when it returns an error. *)
Fixpoint DecodeString (s : string) : option string :=
  match s with
  | EmptyString => Some EmptyString
  | String _ EmptyString => None
  | String a (String b rest) =>
      match fromHexChar a, fromHexChar b, DecodeString rest with
      | Some h, Some l, Some d => Some (String (ascii_of_N (h * 16 + l)) d)
      | _, _, _ => None
      end
  end.

Definition hextable : string := "0123456789abcdef".

Definition hexdigit (n : N) : ascii :=
  match String.get (N.to_nat n) hextable with
  | Some c => c
  | None => "0"%char
  end.

(** [hex.EncodeToString] *)
Fixpoint EncodeToString (s : string) : string :=
  match s with
  | EmptyString => EmptyString
  | String c rest =>
      String (hexdigit (N_of_ascii c / 16)) (String (hexdigit (N_of_ascii c mod 16))
             (EncodeToString rest))
  end.

(** An [ObjectId] is the string of its 12 raw bytes. *)
Definition IsObjectIdHex (s : string) : bool :=
  if negb (String.length s =? 24)%nat then false
  else match DecodeString s with
       | Some _ => true
       | None => false
       end.

(** [n] bytes of [x], most significant first. *)
Fixpoint bigEndian (n : nat) (x : N) : string :=
  match n with
  | O => EmptyString
  | S k => String (ascii_of_N ((x / 256 ^ N.of_nat k) mod 256)) (bigEndian k x)
  end.

(** *** mgo, as the store uses it *)

Record SessionItem : Type := mkSessionItem {
  Id : string;
  Data : string;
  Modified : Z
}.

(** An index of the collection: key and expiry (ns). *)
Record Index : Type := mkIndex {
  Key : list string;
  Background : bool;
  Sparse : bool;
  ExpireAfter : Z
}.

(** The collection [test.session_test] behind the shared mgo session, the
    clock, and the state [bson.NewObjectId] reads. *)
Record World : Type := mkWorld {
  failure : option error;            (* [Some e]: every operation fails with [e] *)
  docs : gmap string SessionItem;
  indexes : list Index;
  monotonic : bool;
  poolLimit : Z;
  live : nat;                        (* cloned sessions not yet closed *)
  clock : Z;                         (* time.Now(), seconds *)
  machineId : N;
  processId : N;
  objectIdCounter : N
}.

Definition with_docs (d : gmap string SessionItem) (w : World) : World :=
  mkWorld (failure w) d (indexes w) (monotonic w) (poolLimit w) (live w)
          (clock w) (machineId w) (processId w) (objectIdCounter w).

Definition with_live (n : nat) (w : World) : World :=
  mkWorld (failure w) (docs w) (indexes w) (monotonic w) (poolLimit w) n
          (clock w) (machineId w) (processId w) (objectIdCounter w).

(** [time.Now()] *)
Definition Now : M World Z := fun w => Ret (clock w) w.

(** [bson.NewObjectId()]: 4 bytes of time, 3 of machine id, 2 of process
    id, 3 of an incremented counter. *)
Definition NewObjectId : M World string :=
  fun w =>
    let i := ((objectIdCounter w + 1) mod 2 ^ 32)%N in
    Ret (bigEndian 4 (Z.to_N (clock w mod 2 ^ 32)) +:+ bigEndian 3 (machineId w)
           +:+ bigEndian 2 (processId w) +:+ bigEndian 3 i)
        (mkWorld (failure w) (docs w) (indexes w) (monotonic w) (poolLimit w) (live w)
                 (clock w) (machineId w) (processId w) i).

(** [bson.ObjectIdHex]: panics on anything but 24 hex digits. *)
Definition ObjectIdHex (s : string) : M World string :=
  match DecodeString s with
  | Some d => if (String.length d =? 12)%nat then ret d
              else throw (PanicString "invalid input to ObjectIdHex")
  | None => throw (PanicString "invalid input to ObjectIdHex")
  end.

(** [mgoSession := m.GlobalMgoSession.Clone(); defer mgoSession.Close()]
    around [body]: the clone is closed also when [body] panics. *)
Definition withClone {A} (body : M World A) : M World A :=
  fun w =>
    match body (with_live (S (live w)) w) with
    | Ret a w' => Ret a (with_live (Nat.pred (live w')) w')
    | Panicked p w' => Panicked p (with_live (Nat.pred (live w')) w')
    end.

(** [c.FindId(id).One(&s)] *)
Definition FindId (id : string) : M World (try SessionItem) :=
  fun w =>
    match failure w with
    | Some e => Ret (Fail e) w
    | None => match docs w !! id with
              | Some item => Ret (Done item) w
              | None => Ret (Fail ErrNotFound) w
              end
    end.

(** [c.UpsertId(id, &s)] *)
Definition UpsertId (id : string) (item : SessionItem) : M World (option error) :=
  fun w =>
    match failure w with
    | Some e => Ret (Some e) w
    | None => Ret None (with_docs (<[id := item]> (docs w)) w)
    end.

(** [c.RemoveId(id)]: removing a missing document is [ErrNotFound]. *)
Definition RemoveId (id : string) : M World (option error) :=
  fun w =>
    match failure w with
    | Some e => Ret (Some e) w
    | None => match docs w !! id with
              | Some _ => Ret None (with_docs (base.delete id (docs w)) w)
              | None => Ret (Some ErrNotFound) w
              end
    end.

(** [c.EnsureIndex(index)]; its error is dropped by the caller.  Whether
    the call creates the index is not decided by what the world holds: mgo
    skips the server for a key it remembers having ensured, and the server
    refuses an index on a key that is indexed with other options.
    [created] says which it is. *)
Definition EnsureIndex (created : bool) (ix : Index) : M World unit :=
  fun w =>
    match failure w with
    | Some _ => Ret tt w
    | None =>
        if created then
          Ret tt (mkWorld (failure w) (docs w) (indexes w ++ [ix]) (monotonic w)
                          (poolLimit w) (live w) (clock w) (machineId w)
                          (processId w) (objectIdCounter w))
        else Ret tt w
    end.

(** *** The store *)

Record MongoStore : Type := mkMongoStore {
  Codecs : gorilla.Codecs;
  Options : gorilla.Options
}.

Section Construction.

(** [securecookie.CodecsFromPairs] *)
Variable CodecsFromPairs : list string -> gorilla.Codecs.

(** Whether the driver and the server create an index, see [EnsureIndex]. *)
Variable indexCreated : Index -> World -> bool.

(** [globalMgoSession] is the pointer handed in; the first call on it,
    [SetMode], panics when it is nil. *)
Definition NewMongoStore (globalMgoSession : option unit) (maxAge : Z) (ensureTTL : bool)
           (keyPairs : list string)
  : M World MongoStore :=
  let store := mkMongoStore (CodecsFromPairs keyPairs)
                            (mkOptions "/" "" maxAge false false) in
  match globalMgoSession with
  | None => throw NilDereference
  | Some _ =>
      let* _ := (fun w => Ret tt (mkWorld (failure w) (docs w) (indexes w) true 1000
                                          (live w) (clock w) (machineId w) (processId w)
                                          (objectIdCounter w))) in
      withClone
        (let* _ := (if ensureTTL then
                      let ix := mkIndex ["modified"] true true
                                        (wrap64 (wrap64 maxAge * 1000000000)) in
                      fun w => EnsureIndex (indexCreated ix w) ix w
                    else ret tt) in
         ret store)
  end.

End Construction.

Definition load (m : MongoStore) (session : Session) : M World (Session * option error) :=
  if negb (IsObjectIdHex (ID session)) then ret (session, Some ErrInvalidId)
  else
    withClone
      (let* id := ObjectIdHex (ID session) in
       let* found := FindId id in
       match found with
       | Fail e => ret (session, Some e)
       | Done s =>
           match DecodeMultiValues (Codecs m) (Name session) (Data s) with
           | Fail e => ret (session, Some e)
           | Done v => ret (with_Values (v ∪ Values session) session, None)
           end
       end).

Definition upsert (m : MongoStore) (session : Session) : M World (option error) :=
  if negb (IsObjectIdHex (ID session)) then ret (Some ErrInvalidId)
  else
    let* modified :=
      (match Values session !! VString "modified" with
       | Some val =>
           match val with
           | VTime t => ret (Done t)
           | _ => ret (Fail ErrInvalidModified)
           end
       | None => let* now := Now in ret (Done now)
       end) in
    match modified with
    | Fail e => ret (Some e)
    | Done modified =>
        match EncodeMultiValues (Codecs m) (Name session) (Values session) with
        | Fail e => ret (Some e)
        | Done encoded =>
            let* id := ObjectIdHex (ID session) in
            let s := mkSessionItem id encoded modified in
            withClone (UpsertId (Id s) s)
        end
    end.

Definition delete (m : MongoStore) (session : Session) : M World (option error) :=
  if negb (IsObjectIdHex (ID session)) then ret (Some ErrInvalidId)
  else
    withClone
      (let* id := ObjectIdHex (ID session) in
       RemoveId id).

(** In the source the [err] bound by [if cookie, err := r.Cookie(name)]
    shadows the [err] that is returned, which therefore stays nil. *)
Definition New (m : MongoStore) (r : Request) (name : string)
  : M World (Session * option error) :=
  let session := NewSession name in
  let session := with_Options
                   (mkOptions (Path (Options m)) (Domain (Options m)) (MaxAge (Options m))
                              (Secure (Options m)) (HttpOnly (Options m))) session in
  let session := with_IsNew true session in
  match RequestCookie r name with
  | Done cookieVal =>
      match DecodeMultiID (Codecs m) name cookieVal with
      | Fail _ => ret (session, None)
      | Done id =>
          let session := with_ID id session in
          let* (session, err) := load m session in
          if negb (notNil err) then ret (with_IsNew false session, None)
          else ret (session, None)
      end
  | Fail _ => ret (session, None)
  end.

Definition Save (m : MongoStore) (r : Request) (w : ResponseWriter) (session : Session)
  : M World (ResponseWriter * Session * option error) :=
  if (MaxAge (SessionOptions session) <? 0)%Z then
    let* err := delete m session in
    match err with
    | Some e => ret (w, session, Some e)
    | None =>
        ret (SetCookie w (NewCookie (Name session) "" (SessionOptions session)),
             session, None)
    end
  else
    let* session :=
      (if String.eqb (ID session) "" then
         let* oid := NewObjectId in ret (with_ID (EncodeToString oid) session)
       else ret session) in
    let* err := upsert m session in
    match err with
    | Some e => ret (w, session, Some e)
    | None =>
        match EncodeMultiID (Codecs m) (Name session) (ID session) with
        | Fail e => ret (w, session, Some e)
        | Done encoded =>
            ret (SetCookie w (NewCookie (Name session) encoded (SessionOptions session)),
                 session, None)
        end
    end.

End Mongostore.

(** ** package sessions (src/unnamed/part_000, src/mongo.go) *)
Module Sessions.

Definition DefaultKey : string := "lemuse-session".

Record Options : Type := mkOptions {
  Path : string;
  Domain : string;
  MaxAge : Z;
  Secure : bool;
  HttpOnly : bool
}.

Definition toGorilla (options : Options) : gorilla.Options :=
  gorilla.mkOptions (Path options) (Domain options) (MaxAge options)
                    (Secure options) (HttpOnly options).

(** The methods of the [Store] interface that the wrapper reaches: [Get]
    directly, [Save] through [sessions.Session.Save], which calls
    [store.Save(r, w, session)].  [Get] may hand back a nil session. *)
Record Store (W : Type) : Type := mkStore {
  StoreGet : gorilla.Request -> string -> M W (option gorilla.Session * option error);
  StoreSave : gorilla.Request -> gorilla.ResponseWriter -> gorilla.Session ->
              M W (gorilla.ResponseWriter * gorilla.Session * option error)
}.
Arguments StoreGet {W} _ _ _.
Arguments StoreSave {W} _ _ _ _.

Record Session (W : Type) : Type := mkSession {
  name : string;
  request : gorilla.Request;
  store : Store W;
  session : option gorilla.Session;
  valueChanged : bool;
  writer : gorilla.ResponseWriter
}.
Arguments mkSession {W} _ _ _ _ _ _.
Arguments name {W} _.
Arguments request {W} _.
Arguments store {W} _.
Arguments session {W} _.
Arguments valueChanged {W} _.
Arguments writer {W} _.

Section Wrapper.

Context {W : Type}.

(** [log.Printf(errorFormat, err)] *)
Variable logPrintf : error -> M W unit.

Definition with_session (g : option gorilla.Session) (s : Session W) : Session W :=
  mkSession (name s) (request s) (store s) g (valueChanged s) (writer s).

Definition with_valueChanged (b : bool) (s : Session W) : Session W :=
  mkSession (name s) (request s) (store s) (session s) b (writer s).

Definition with_writer (w : gorilla.ResponseWriter) (s : Session W) : Session W :=
  mkSession (name s) (request s) (store s) (session s) (valueChanged s) w.

Definition GetSession (s : Session W) : M W (Session W * option gorilla.Session) :=
  match session s with
  | None =>
      let* (g, err) := StoreGet (store s) (request s) (name s) in
      let s := with_session g s in
      let* _ := (match err with
                 | Some e => logPrintf e
                 | None => ret tt
                 end) in
      ret (s, session s)
  | Some g => ret (s, Some g)
  end.

(** A field access or method call through the pointer [GetSession]
    returned. *)
Definition deref (g : option gorilla.Session) : M W gorilla.Session :=
  match g with
  | Some g => ret g
  | None => throw NilDereference
  end.

Definition Get (s : Session W) (key : value) : M W (Session W * option value) :=
  let* (s, g) := GetSession s in
  let* g := deref g in
  ret (s, gorilla.Values g !! key).

Definition Save (s : Session W) : M W (Session W * option error) :=
  if valueChanged s then
    let* (s, g) := GetSession s in
    let* g := deref g in
    let* (w, g, e) := StoreSave (store s) (request s) (writer s) g in
    let s := with_writer w (with_session (Some g) s) in
    match e with
    | None => ret (with_valueChanged false s, None)
    | Some e => ret (s, Some e)
    end
  else ret (s, None).

(** The method [Set] ([Set] is reserved). *)
Definition Set_ (s : Session W) (key val : value) : M W (Session W) :=
  let* (s, g) := GetSession s in
  let* g := deref g in
  let s := with_session (Some (gorilla.with_Values (<[key := val]> (gorilla.Values g)) g)) s in
  let s := with_valueChanged true s in
  let* (s, _) := Save s in
  ret s.

Definition Delete (s : Session W) (key : value) : M W (Session W) :=
  let* (s, g) := GetSession s in
  let* g := deref g in
  let s := with_session (Some (gorilla.with_Values (base.delete key (gorilla.Values g)) g)) s in
  ret (with_valueChanged true s).

Fixpoint DeleteAll (s : Session W) (keys : list value) : M W (Session W) :=
  match keys with
  | [] => ret s
  | key :: rest => let* s := Delete s key in DeleteAll s rest
  end.

(** [for key := range s.GetSession().Values { s.Delete(key) }] *)
Definition Clear (s : Session W) : M W (Session W) :=
  let* (s, g) := GetSession s in
  let* g := deref g in
  DeleteAll s (map fst (map_to_list (gorilla.Values g))).

(** The method [Options]. *)
Definition SetOptions (s : Session W) (options : Options) : M W (Session W) :=
  let* (s, g) := GetSession s in
  let* g := deref g in
  ret (with_session (Some (gorilla.with_Options (toGorilla options) g)) s).

End Wrapper.

(** [mongoStore.Options] (src/mongo.go) *)
Definition mongoStore_Options (c : Mongostore.MongoStore) (options : Options)
  : Mongostore.MongoStore :=
  Mongostore.mkMongoStore (Mongostore.Codecs c) (toGorilla options).

(** The [Store] a [*mongostore.MongoStore] is, for a session name that the
    request's registry does not hold yet: [Registry.Get] then delegates to
    [New]. *)
Definition mongoStore (m : Mongostore.MongoStore) : Store Mongostore.World :=
  mkStore Mongostore.World
    (fun r name => let* (g, err) := Mongostore.New m r name in ret (Some g, err))
    (Mongostore.Save m).

(** The same for a [*redistore.RediStore]. *)
Definition rediStore (s : Redistore.RediStore) : Store Redistore.World :=
  mkStore Redistore.World
    (fun r name => let* (g, err) := Redistore.New s r name in ret (Some g, err))
    (Redistore.Save s).

End Sessions.

(** ** Concrete stores, requests and worlds *)
Module Fixture.
Import gorilla.

(** A toy codec: the encoded form of [v] under [name] is [name|v]. *)
Definition sign (name v : string) : try string :=
  Done (name +:+ "|" +:+ v).

Definition unsign (name c : string) : try string :=
  if String.prefix (name +:+ "|") c then
    Done (String.substring (String.length name + 1)
                           (String.length c - (String.length name + 1)) c)
  else Fail (ErrCodec "securecookie: the value is not valid").

Definition filler (n : nat) : string :=
  string_of_list_ascii (repeat "x"%char n).

Definition codecs : Codecs :=
  mkCodecs sign unsign
    (fun name v => sign name (filler (8 * size v)))
    (fun name d => match unsign name d with
                   | Done _ => Done ∅
                   | Fail e => Fail e
                   end).

Definition CodecsFromPairs (keyPairs : list string) : Codecs := codecs.

Definition idle : Redistore.Server := Redistore.mkServer None false ∅ [].

Definition unreachable : Redistore.Server :=
  Redistore.mkServer (Some (ErrNet "dial tcp: connection refused")) false ∅ [].

Definition world0 : Redistore.World :=
  Redistore.mkWorld idle idle ["IDONE"; "IDTWO"].

Definition world_down : Redistore.World :=
  Redistore.mkWorld unreachable unreachable ["IDONE"; "IDTWO"].

(** A world whose single node holds a record that does not decode. *)
Definition world_garbled : Redistore.World :=
  Redistore.mkWorld
    (Redistore.mkServer None false (<["session_abc" := ("garbled", 5%Z)]> ∅) [])
    idle [].

(** A world whose single node holds a session saved earlier. *)
Definition world_saved : Redistore.World :=
  Redistore.mkWorld
    (Redistore.mkServer None false (<["session_abc" := ("sid|", 5%Z)]> ∅) [])
    idle [].

Definition store0 : Redistore.RediStore :=
  Redistore.mkRediStore
    (Some (Redistore.mkClientOptions "127.0.0.1:6379" 10 10 ""))
    None codecs (mkOptions "/" "" Redistore.sessionExpire false false)
    (60 * 30) 4096 "session_" false.

Definition six : list string :=
  ["10.0.0.1:7000"; "10.0.0.2:7000"; "10.0.0.3:7000";
   "10.0.0.4:7000"; "10.0.0.5:7000"; "10.0.0.6:7000"].

Definition cluster0 : Redistore.RediStore :=
  Redistore.mkRediStore
    None (Some (Redistore.mkClusterOptions six 10 10 ""))
    codecs (mkOptions "/" "" Redistore.sessionExpire false false)
    (60 * 30) 4096 "session_" true.

Definition request_none : Request := mkRequest [].
Definition request_abc : Request := mkRequest [("sid", "sid|abc")].
Definition request_tampered : Request := mkRequest [("sid", "sid?abc")].

Definition expired : Options := mkOptions "/" "" (-1) false false.
Definition half_hour : Options := mkOptions "/" "" 1800 false false.

Definition session_abc : Session :=
  mkSession "abc" (<[VString "count" := VInt 1]> ∅) half_hour false "sid".

Definition session_expired : Session :=
  mkSession "abc" (<[VString "count" := VInt 1]> ∅) expired false "sid".

(** The document store. *)

Definition mongo0 : Mongostore.MongoStore :=
  Mongostore.mkMongoStore codecs half_hour.

Definition oid : string := "5f5f5f5f5f5f5f5f5f5f5f5f".
Definition oid_bytes : string := "____________".

Definition item0 : Mongostore.SessionItem :=
  Mongostore.mkSessionItem oid_bytes "sid|" 1600000000.

Definition db0 : Mongostore.World :=
  Mongostore.mkWorld None ∅ [] true 1000 0 1700000000 1715004 4242 7.

Definition db_saved : Mongostore.World :=
  Mongostore.mkWorld None (<[oid_bytes := item0]> ∅) [] true 1000 0
                     1700000000 1715004 4242 7.

Definition doc_expired : Session :=
  mkSession oid (<[VString "count" := VInt 1]> ∅) expired false "sid".

Definition doc_stamped : Session :=
  mkSession oid (<[VString "modified" := VTime 1650000000]> ∅) half_hour false "sid".

Definition doc_plain : Session :=
  mkSession oid (<[VString "count" := VInt 1]> ∅) half_hour false "sid".

Definition doc_mistyped : Session :=
  mkSession oid (<[VString "modified" := VString "yesterday"]> ∅) half_hour false "sid".

(** A session whose id is not a document identifier. *)
Definition doc_foreign : Session :=
  mkSession "abc" (<[VString "modified" := VString "yesterday"]> ∅) half_hour false "sid".

(** The wrapper. *)

Definition quiet {W : Type} (e : error) : M W unit := ret tt.

Definition wrapper0 : Sessions.Session Redistore.World :=
  Sessions.mkSession "sid" request_none (Sessions.rediStore store0) None false [].

(** [Set("count", 1)], then [Delete("count")], then [Save()] twice. *)
Definition set_delete_save_save
  : M Redistore.World (Sessions.Session Redistore.World * option error * option error) :=
  let* s := Sessions.Set_ quiet wrapper0 (VString "count") (VInt 1) in
  let* s := Sessions.Delete quiet s (VString "count") in
  let* (s, e1) := Sessions.Save quiet s in
  let* (s, e2) := Sessions.Save quiet s in
  ret (s, e1, e2).

End Fixture.

(** ** More concrete stores, with a codec that reads back what it wrote *)
Module Sample.
Import gorilla.

Definition counted : gmap value value := <[VString "count" := VInt 1]> ∅.

Definition render (v : gmap value value) : string :=
  match v !! VString "count" with
  | Some (VInt 1) => "count=1"
  | _ => "empty"
  end.

Definition parse (d : string) : gmap value value :=
  if String.eqb d "count=1" then counted else ∅.

(** Like [Fixture.codecs], but the values [counted] and [∅] decode to
    themselves. *)
Definition codecs : Codecs :=
  mkCodecs Fixture.sign Fixture.unsign
    (fun name v => Fixture.sign name (render v))
    (fun name d => match Fixture.unsign name d with
                   | Done p => Done (parse p)
                   | Fail e => Fail e
                   end).

Definition store : Redistore.RediStore :=
  Redistore.mkRediStore
    (Some (Redistore.mkClientOptions "127.0.0.1:6379" 10 10 ""))
    None codecs (mkOptions "/" "" Redistore.sessionExpire false false)
    (60 * 30) 4096 "session_" false.

Definition mongo : Mongostore.MongoStore :=
  Mongostore.mkMongoStore codecs Fixture.half_hour.

(** A session a handler has put a counter into, not saved yet. *)
Definition fresh_counted : Session :=
  mkSession "" counted Fixture.half_hour true "sid".

Definition saved_counted : Session :=
  mkSession "IDONE" counted Fixture.half_hour true "sid".

Definition request_IDONE : Request := mkRequest [("sid", "sid|IDONE")].

Definition request_other : Request := mkRequest [("lang", "en"); ("theme", "dark")].

Definition request_oid : Request := mkRequest [("sid", "sid|" +:+ Fixture.oid)].

Definition doc_counted : Session :=
  mkSession Fixture.oid counted Fixture.half_hour true "sid".

(** A store that keeps everything in one cell and whose [Save] fails. *)
Definition failing : Sessions.Store unit :=
  Sessions.mkStore unit
    (fun r name => ret (Some (NewSession name), None))
    (fun r w g => ret (w, g, Some (ErrNet "write: broken pipe"))).

Definition wrapper_failing : Sessions.Session unit :=
  Sessions.mkSession "sid" Fixture.request_none failing None false [].

Definition wrapper_cached : Sessions.Session Redistore.World :=
  Sessions.mkSession "sid" Fixture.request_none (Sessions.rediStore store)
                     (Some saved_counted) false [].

(** A wrapper over that store which holds a session with one value. *)
Definition wrapper_held : Sessions.Session unit :=
  Sessions.mkSession "sid" Fixture.request_none failing (Some saved_counted) false [].

(** A store whose [Get] hands back no session, as the registry does for a
    cookie name it refuses. *)
Definition refusing : Sessions.Store unit :=
  Sessions.mkStore unit
    (fun r name => ret (None, Some (ErrCodec "sessions: invalid character in cookie name")))
    (fun r w g => ret (w, g, None)).

Definition wrapper_refused : Sessions.Session unit :=
  Sessions.mkSession "s;id" Fixture.request_none refusing None true [].

(** A session marked for deletion that was never saved: it has no id. *)
Definition fresh_expired : Session :=
  mkSession "" counted Fixture.expired true "sid".

End Sample.

(** ** Further vocabulary of the statements *)
Module Terms.
Import gorilla.

(** The deployment the store's mode does not select. *)
Definition idle_side (s : Redistore.RediStore) (w : Redistore.World) : Redistore.Server :=
  if Redistore.IsCluster s then Redistore.node w else Redistore.cluster w.

(** The response after [Save] returned [e]: one more cookie, named after
    the session and carrying its options, when [e] is nil; the response as
    it was otherwise. *)
Definition cookie_iff_nil (w w' : ResponseWriter) (session : Session) (e : option error)
  : Prop :=
  match e with
  | None => exists v, w' = w ++ [NewCookie (Name session) v (SessionOptions session)]
  | Some _ => w' = w
  end.

(** [session'] is [session] up to the id. *)
Definition same_but_ID (session session' : Session) : Prop :=
  Name session' = Name session
  /\ Values session' = Values session
  /\ SessionOptions session' = SessionOptions session
  /\ IsNew session' = IsNew session.

(** A store whose [Save] hands back the values it was given, as both
    stores of the repository do. *)
Definition keeps_values {W : Type} (st : Sessions.Store W) : Prop :=
  forall r w g world w' g' e world',
    Sessions.StoreSave st r w g world = Ret (w', g', e) world' ->
    Values g' = Values g.

End Terms.

(** ** Facts about package redistore *)
Module RedistoreFacts.
Import gorilla Redistore.

(** A call through the pointer of the store's mode reaches the backend. *)
Lemma dispatch {A} (s : RediStore) (f : Server -> A * Server) (w : World) :
  connected s = true ->
  (if IsCluster s then onClusterClient (ClusterClient s) f
   else onClient (Client s) f) w
  = Ret (fst (f (backend s w))) (put_backend s (snd (f (backend s w))) w).
Proof.
  unfold connected, backend, put_backend, onClusterClient, onClient.
  destruct (IsCluster s).
  - destruct (ClusterClient s); [intros _ | discriminate].
    destruct (f (cluster w)); reflexivity.
  - destruct (Client s); [intros _ | discriminate].
    destruct (f (node w)); reflexivity.
Qed.

(** [load] returns the session it was given whenever it returns an error. *)
Lemma load_error_keeps_session s session w session' e w' :
  load s session w = Ret (session', Some e) w' -> session' = session.
Proof.
  unfold load, bind.
  case_res as [data err] w1; [| discriminate].
  destruct (String.eqb data ""); [discriminate |].
  destruct (DecodeMultiValues _ _ _); unfold ret; intros H; inversion H; reflexivity.
Qed.

(** C1, amended.  When the request's cookie fails to decode, or decodes
    and [load] then returns an error, [New] returns a session that is new
    ([IsNew = true]) and empty, together with that error: the error is
    handed to the caller of [New], not dropped. *)
Theorem New_failure_returns_error (s : RediStore) (r : Request) (name c : string)
        (w : World) :
  RequestCookie r name = Done c ->
  (forall e, DecodeMultiID (Codecs s) name c = Fail e ->
     New s r name w = Ret (blank s name, Some e) w)
  /\ (forall id session e w',
        DecodeMultiID (Codecs s) name c = Done id ->
        load s (with_ID id (blank s name)) w = Ret (session, Some e) w' ->
        New s r name w = Ret (with_ID id (blank s name), Some e) w')
  /\ IsNew (blank s name) = true
  /\ Values (blank s name) = ∅
  /\ (forall id, IsNew (with_ID id (blank s name)) = true
                 /\ Values (with_ID id (blank s name)) = ∅).
Proof.
  intros Hc. repeat split.
  - intros e He. unfold New. rewrite Hc, He. reflexivity.
  - intros id session e w' Hid Hload.
    pose proof (load_error_keeps_session _ _ _ _ _ _ Hload) as ->.
    unfold New. rewrite Hc, Hid. fold (blank s name).
    unfold bind. rewrite Hload. reflexivity.
Qed.

Lemma New_failure_returns_error_witness :
  RequestCookie Fixture.request_tampered "sid" = Done "sid?abc"
  /\ New Fixture.store0 Fixture.request_tampered "sid" Fixture.world0
     = Ret (blank Fixture.store0 "sid",
            Some (ErrCodec "securecookie: the value is not valid")) Fixture.world0.
Proof.
  split; [reflexivity |].
  apply (proj1 (New_failure_returns_error Fixture.store0 Fixture.request_tampered
                  "sid" "sid?abc" Fixture.world0 eq_refl)).
  reflexivity.
Defined.

(** The claim C1 as stated fails: on a cookie that does not decode, [New]
    does not return a nil error. *)
Lemma New_tampered_cookie_returns_error :
  RequestCookie Fixture.request_tampered "sid" = Done "sid?abc"
  /\ DecodeMultiID (Codecs Fixture.store0) "sid" "sid?abc"
     = Fail (ErrCodec "securecookie: the value is not valid")
  /\ ~ exists session w',
        New Fixture.store0 Fixture.request_tampered "sid" Fixture.world0
        = Ret (session, None) w'.
Proof.
  repeat split.
  intros (session & w' & H). vm_compute in H. discriminate H.
Qed.

(** The same for a failing [load]: the stored record does not decode. *)
Lemma New_failed_load_returns_error :
  ~ exists session w',
      New Fixture.store0 Fixture.request_abc "sid" Fixture.world_garbled
      = Ret (session, None) w'.
Proof.
  intros (session & w' & H). vm_compute in H. discriminate H.
Qed.

(** C2.  With a cookie that decodes to [id] and a reachable backend that
    holds nothing under [keyPrefix + id], [load] returns a nil error and
    the session [New] returns has [IsNew = false]: it does not stay new. *)
Theorem New_missing_key_is_not_new (s : RediStore) (r : Request) (name c id : string)
        (w : World) :
  connected s = true ->
  RequestCookie r name = Done c ->
  DecodeMultiID (Codecs s) name c = Done id ->
  unavailable (backend s w) = None ->
  keys (backend s w) !! (keyPrefix s +:+ id) = None ->
  let w' := put_backend s (called (GET (keyPrefix s +:+ id)) (backend s w)) w in
  load s (with_ID id (blank s name)) w = Ret (with_ID id (blank s name), None) w'
  /\ New s r name w = Ret (with_IsNew false (with_ID id (blank s name)), None) w'.
Proof.
  intros Hs Hc Hid Hup Hkey w'.
  assert (Hload : load s (with_ID id (blank s name)) w
                  = Ret (with_ID id (blank s name), None) w').
  { unfold load, bind. rewrite (dispatch s _ w Hs).
    unfold cmdGet. cbn [ID with_ID]. rewrite Hup, Hkey. reflexivity. }
  split; [exact Hload |].
  unfold New. rewrite Hc, Hid. fold (blank s name).
  unfold bind. rewrite Hload. reflexivity.
Qed.

Lemma New_missing_key_is_not_new_witness :
  New Fixture.store0 Fixture.request_abc "sid" Fixture.world0
  = Ret (with_IsNew false (with_ID "abc" (blank Fixture.store0 "sid")), None)
        (mkWorld (called (GET "session_abc") Fixture.idle)
                 Fixture.idle ["IDONE"; "IDTWO"]).
Proof.
  exact (proj2 (New_missing_key_is_not_new Fixture.store0 Fixture.request_abc
                  "sid" "sid|abc" "abc" Fixture.world0
                  eq_refl eq_refl eq_refl eq_refl eq_refl)).
Defined.

(** C3.  When the backend cannot be reached, [load] returns a nil error:
    the error of the GET is dropped inside [load], and [New] reports a
    session that is not new, with a nil error. *)
Theorem load_swallows_backend_error (s : RediStore) (session : Session) (w : World)
        (e : error) :
  connected s = true ->
  unavailable (backend s w) = Some e ->
  let w' := put_backend s (called (GET (keyPrefix s +:+ ID session)) (backend s w)) w in
  load s session w = Ret (session, None) w'
  /\ (forall r c, RequestCookie r (Name session) = Done c ->
                  DecodeMultiID (Codecs s) (Name session) c = Done (ID session) ->
                  exists session',
                    New s r (Name session) w = Ret (session', None) w'
                    /\ IsNew session' = false).
Proof.
  intros Hs Hdown w'.
  assert (Hload : forall g, ID g = ID session -> load s g w = Ret (g, None) w').
  { intros g Hg. unfold load, bind. rewrite (dispatch s _ w Hs).
    unfold cmdGet. rewrite Hg, Hdown. reflexivity. }
  split; [apply Hload; reflexivity |].
  intros r c Hc Hid.
  exists (with_IsNew false (with_ID (ID session) (blank s (Name session)))).
  split; [| reflexivity].
  unfold New. rewrite Hc, Hid. fold (blank s (Name session)).
  unfold bind. rewrite Hload by reflexivity. reflexivity.
Qed.

Lemma load_swallows_backend_error_witness :
  load Fixture.store0 Fixture.session_abc Fixture.world_down
  = Ret (Fixture.session_abc, None)
        (mkWorld (called (GET "session_abc") Fixture.unreachable)
                 Fixture.unreachable ["IDONE"; "IDTWO"]).
Proof.
  exact (proj1 (load_swallows_backend_error Fixture.store0 Fixture.session_abc
                  Fixture.world_down (ErrNet "dial tcp: connection refused")
                  eq_refl eq_refl)).
Defined.

(** *** [Save] *)

Lemma backend_put_backend s sv w : backend s (put_backend s sv w) = sv.
Proof. unfold backend, put_backend. destruct (IsCluster s); reflexivity. Qed.

Lemma cache_delete_result s session w :
  connected s = true ->
  delete s session w
  = Ret (snd (fst (cmdDel (keyPrefix s +:+ ID session) (backend s w))))
        (put_backend s (snd (cmdDel (keyPrefix s +:+ ID session) (backend s w))) w).
Proof.
  intros Hs. unfold delete, bind. rewrite (dispatch s _ w Hs).
  destruct (cmdDel _ _) as [[n e] sv]. reflexivity.
Qed.

(** A [DEL] that returns a nil error leaves no record under the key. *)
Lemma cmdDel_removes key sv :
  snd (fst (cmdDel key sv)) = None ->
  keys (snd (cmdDel key sv)) !! key = None.
Proof.
  unfold cmdDel. destruct (unavailable sv); [discriminate |].
  intros _. cbn. apply lookup_delete_eq.
Qed.

(** [Save] on a session marked for deletion, in terms of [delete]. *)
Lemma cache_Save_marked_for_deletion s r w session world :
  connected s = true ->
  (MaxAge (SessionOptions session) < 0)%Z ->
  (forall world',
      delete s session world = Ret None world' ->
      Save s r w session world
      = Ret (SetCookie w (NewCookie (Name session) "" (SessionOptions session)),
             session, None) world'
      /\ keys (backend s world') !! (keyPrefix s +:+ ID session) = None)
  /\ (forall e world',
        delete s session world = Ret (Some e) world' ->
        Save s r w session world = Ret (w, session, Some e) world')
  /\ (exists err world', delete s session world = Ret err world')
  /\ (forall v,
        effects (Save s r w (with_Values v session) world)
        = effects (Save s r w session world)).
Proof.
  intros Hs Hage. apply Z.ltb_lt in Hage.
  repeat split.
  - unfold Save, bind. rewrite Hage, H. reflexivity.
  - rewrite (cache_delete_result s session world Hs) in H.
    inversion H as [[He Hw]]. rewrite backend_put_backend.
    apply cmdDel_removes. exact He.
  - intros e world' H. unfold Save, bind. rewrite Hage, H. reflexivity.
  - rewrite (cache_delete_result s session world Hs). eauto.
  - intros v. unfold Save, bind. cbn [SessionOptions with_Values].
    rewrite Hage.
    replace (delete s (with_Values v session) world) with (delete s session world)
      by reflexivity.
    destruct (delete s session world) as [[e |] w1 | p w1]; reflexivity.
Qed.

Lemma save_too_big s session w encoded :
  EncodeMultiValues (Codecs s) (Name session) (Values session) = Done encoded ->
  (0 < maxLength s)%Z ->
  (maxLength s < Z.of_nat (String.length encoded))%Z ->
  save s session w = Ret (Some ErrTooBig) w.
Proof.
  intros Henc Hpos Hlen. unfold save. rewrite Henc.
  replace (maxLength s =? 0)%Z with false by (symmetry; apply Z.eqb_neq; lia).
  replace (maxLength s <? Z.of_nat (String.length encoded))%Z with true
    by (symmetry; apply Z.ltb_lt; lia).
  reflexivity.
Qed.

Lemma save_unlimited s session w encoded :
  EncodeMultiValues (Codecs s) (Name session) (Values session) = Done encoded ->
  maxLength s = 0%Z ->
  connected s = true ->
  unavailable (backend s w) = None ->
  let key := keyPrefix s +:+ ID session in
  save s session w
  = Ret None
        (put_backend s
           (called (SET key encoded (ttl s session))
                   (with_keys (<[key := (encoded, ttl s session)]> (keys (backend s w)))
                              (backend s w))) w).
Proof.
  intros Henc Hzero Hs Hup key. unfold save. rewrite Henc, Hzero. cbn [Z.eqb negb andb].
  unfold bind. rewrite (dispatch s _ w Hs). unfold cmdSet. rewrite Hup. reflexivity.
Qed.

(** C5, amended.  With a positive [maxLength], [Save] on a session whose
    [MaxAge] is not negative and whose encoded values are longer than
    [maxLength] returns the too-big error, sets no cookie and leaves both
    deployments as they were: no call is made, no record changes.  With
    [maxLength = 0] the record is written whatever its length. *)
Theorem Save_length_guard (s : RediStore) (r : Request) (w : ResponseWriter)
        (session : Session) (world : World) (encoded : string) :
  (0 <= MaxAge (SessionOptions session))%Z ->
  EncodeMultiValues (Codecs s) (Name session) (Values session) = Done encoded ->
  ((0 < maxLength s)%Z ->
   (maxLength s < Z.of_nat (String.length encoded))%Z ->
   exists session' world',
     Save s r w session world = Ret (w, session', Some ErrTooBig) world'
     /\ node world' = node world
     /\ cluster world' = cluster world)
  /\ (maxLength s = 0%Z ->
      connected s = true ->
      unavailable (backend s world) = None ->
      exists w' session' err world',
        Save s r w session world = Ret (w', session', err) world'
        /\ keys (backend s world') !! (keyPrefix s +:+ ID session')
           = Some (encoded, ttl s session)).
Proof.
  intros Hage Henc. apply Z.ltb_ge in Hage.
  assert (Hid : exists session' world1,
             (if String.eqb (ID session) "" then
                let* id := generateID in ret (with_ID id session)
              else ret session) world = Ret session' world1
             /\ Name session' = Name session
             /\ Values session' = Values session
             /\ SessionOptions session' = SessionOptions session
             /\ node world1 = node world
             /\ cluster world1 = cluster world).
  { destruct (String.eqb (ID session) "").
    - unfold bind, generateID, ret.
      destruct (entropy world) as [| id rest]; eauto 10.
    - unfold ret. eauto 10. }
  destruct Hid as (session' & world1 & Hgen & Hname & Hvals & Hopts & Hnode & Hcluster).
  split.
  - intros Hpos Hlen. exists session', world1.
    split; [| split; assumption].
    unfold Save. rewrite Hage. unfold bind at 1. rewrite Hgen.
    unfold bind. rewrite (save_too_big s session' world1 encoded); [reflexivity | | |];
      [rewrite Hname, Hvals; assumption | assumption | assumption].
  - intros Hzero Hs Hup.
    assert (Hup1 : unavailable (backend s world1) = None).
    { unfold backend in *. rewrite Hnode, Hcluster. exact Hup. }
    assert (Henc1 : EncodeMultiValues (Codecs s) (Name session') (Values session')
                    = Done encoded) by (rewrite Hname, Hvals; assumption).
    pose proof (save_unlimited s session' world1 encoded Henc1 Hzero Hs Hup1) as Hsave.
    cbv zeta in Hsave.
    assert (Httl : ttl s session' = ttl s session) by (unfold ttl; rewrite Hopts; reflexivity).
    destruct (EncodeMultiID (Codecs s) (Name session') (ID session')) as [c | e] eqn:Hc.
    + eexists _, session', None, _. split.
      * unfold Save. rewrite Hage. unfold bind at 1. rewrite Hgen.
        unfold bind. rewrite Hsave, Hc. reflexivity.
      * rewrite backend_put_backend. cbn. rewrite Httl. apply lookup_insert_eq.
    + eexists w, session', (Some e), _. split.
      * unfold Save. rewrite Hage. unfold bind at 1. rewrite Hgen.
        unfold bind. rewrite Hsave, Hc. reflexivity.
      * rewrite backend_put_backend. cbn. rewrite Httl. apply lookup_insert_eq.
Qed.

Lemma Save_length_guard_witness :
  exists session' world',
    Save (SetMaxLength Fixture.store0 4) Fixture.request_abc [] Fixture.session_abc
         Fixture.world_saved
    = Ret ([], session', Some ErrTooBig) world'
    /\ node world' = node Fixture.world_saved
    /\ cluster world' = cluster Fixture.world_saved.
Proof.
  apply (proj1 (Save_length_guard (SetMaxLength Fixture.store0 4) Fixture.request_abc []
                  Fixture.session_abc Fixture.world_saved "sid|xxxxxxxx"
                  ltac:(cbn; lia) eq_refl)).
  - cbn. lia.
  - cbn. lia.
Defined.

(** The claim C5 as stated fails for a session marked for deletion: its
    encoded values exceed the positive [maxLength], yet [Save] returns no
    error and the record saved earlier is gone. *)
Lemma Save_expired_skips_length_guard :
  let s := SetMaxLength Fixture.store0 4 in
  let result := Save s Fixture.request_abc [] Fixture.session_expired Fixture.world_saved in
  EncodeMultiValues (Codecs s) "sid" (Values Fixture.session_expired) = Done "sid|xxxxxxxx"
  /\ (0 < maxLength s < Z.of_nat (String.length "sid|xxxxxxxx"))%Z
  /\ keys (node Fixture.world_saved) !! "session_abc" = Some ("sid|", 5%Z)
  /\ fst (effects result) = Some ([NewCookie "sid" "" Fixture.expired], None)
  /\ keys (node (snd (effects result))) !! "session_abc" = None
  /\ ~ exists w' session' e world', result = Ret (w', session', Some e) world'.
Proof.
  cbv zeta. repeat split; try (cbn; lia).
  intros (w' & session' & e & world' & H). vm_compute in H. discriminate H.
Qed.

(** *** The constructor and [Close] *)

(** C6, amended.  In cluster mode fewer than 6 addresses, and in
    single-node mode more than 1 address, make the constructor panic with
    its configuration error, in the world it was called in: no call has
    been made on any client. *)
Theorem NewRediStore_rejects_address_count
        (CodecsFromPairs : list string -> gorilla.Codecs) (size : Z)
        (address : list string) (password : string) (keyPairs : list string)
        (w : World) :
  ((length address < 6)%nat ->
   NewRediStore CodecsFromPairs true size address password keyPairs w
   = Panicked (PanicString "cluster mode. redis cluster address error. count < 6") w)
  /\ ((1 < length address)%nat ->
      NewRediStore CodecsFromPairs false size address password keyPairs w
      = Panicked (PanicString "single mode. redis address error. count > 1") w).
Proof.
  split; intros H; unfold NewRediStore, bind.
  - apply Nat.ltb_lt in H. rewrite H. reflexivity.
  - apply Nat.ltb_lt in H. rewrite H. reflexivity.
Qed.

Lemma NewRediStore_rejects_address_count_witness :
  NewRediStore Fixture.CodecsFromPairs true 10 ["10.0.0.1:7000"; "10.0.0.2:7000"] "" []
               Fixture.world0
  = Panicked (PanicString "cluster mode. redis cluster address error. count < 6")
             Fixture.world0
  /\ NewRediStore Fixture.CodecsFromPairs false 10 ["10.0.0.1:6379"; "10.0.0.2:6379"] "" []
                  Fixture.world0
     = Panicked (PanicString "single mode. redis address error. count > 1")
                Fixture.world0.
Proof.
  split.
  - apply (proj1 (NewRediStore_rejects_address_count Fixture.CodecsFromPairs 10
                    ["10.0.0.1:7000"; "10.0.0.2:7000"] "" [] Fixture.world0)).
    simpl. lia.
  - apply (proj2 (NewRediStore_rejects_address_count Fixture.CodecsFromPairs 10
                    ["10.0.0.1:6379"; "10.0.0.2:6379"] "" [] Fixture.world0)).
    simpl. lia.
Defined.

(** The claim C6 as stated fails for the empty address list, which is not
    exactly 1 address long: the single-node constructor does not end in a
    configuration error. *)
Lemma NewRediStore_empty_is_no_configuration_error :
  length ([] : list string) <> 1%nat
  /\ NewRediStore Fixture.CodecsFromPairs false 10 [] "" [] Fixture.world0
     = Panicked (IndexOutOfRange 0 0) Fixture.world0
  /\ ~ exists msg w',
        NewRediStore Fixture.CodecsFromPairs false 10 [] "" [] Fixture.world0
        = Panicked (PanicString msg) w'.
Proof.
  repeat split; [discriminate |].
  intros (msg & w' & H). vm_compute in H. discriminate H.
Qed.

(** C9.  In single-node mode with no address the check [count > 1] passes
    and [address[0]] panics with an index-out-of-range runtime error, which
    is not the configuration error. *)
Theorem NewRediStore_empty_single_indexes_out_of_range
        (CodecsFromPairs : list string -> gorilla.Codecs) (size : Z)
        (password : string) (keyPairs : list string) (w : World) :
  (1 <? length ([] : list string))%nat = false
  /\ NewRediStore CodecsFromPairs false size [] password keyPairs w
     = Panicked (IndexOutOfRange 0 0) w
  /\ configuration_error (IndexOutOfRange 0 0) = false
  /\ forall msg w',
       NewRediStore CodecsFromPairs false size [] password keyPairs w
       <> Panicked (PanicString msg) w'.
Proof.
  repeat split. intros msg w' H. discriminate H.
Qed.

Lemma NewRediStore_empty_single_indexes_out_of_range_witness :
  NewRediStore Fixture.CodecsFromPairs false 10 [] "" [] Fixture.world0
  = Panicked (IndexOutOfRange 0 0) Fixture.world0.
Proof.
  exact (proj1 (proj2 (NewRediStore_empty_single_indexes_out_of_range
                         Fixture.CodecsFromPairs 10 "" [] Fixture.world0))).
Defined.

(** Every store the constructor returns has its mode's client set. *)
Lemma NewRediStore_shape CodecsFromPairs isCluster size address password keyPairs
      w s err w' :
  NewRediStore CodecsFromPairs isCluster size address password keyPairs w
  = Ret (s, err) w' ->
  IsCluster s = isCluster
  /\ (if isCluster then Client s = None /\ ClusterClient s <> None
      else Client s <> None /\ ClusterClient s = None).
Proof.
  unfold NewRediStore, bind, index0, ret, throw. destruct isCluster.
  - destruct (length address <? 6)%nat; [discriminate |].
    destruct (ping _ _) as [[ok e] w1 | p w1]; [| discriminate].
    intros H. inversion H; subst. cbn. repeat split. discriminate.
  - destruct (1 <? length address)%nat; [discriminate |].
    destruct address as [| a rest]; [discriminate |].
    destruct (ping _ _) as [[ok e] w1 | p w1]; [| discriminate].
    intros H. inversion H; subst. cbn. repeat split. discriminate.
Qed.

Lemma NewRediStore_connected CodecsFromPairs isCluster size address password keyPairs
      w s err w' :
  NewRediStore CodecsFromPairs isCluster size address password keyPairs w
  = Ret (s, err) w' ->
  connected s = true.
Proof.
  intros H. apply NewRediStore_shape in H as [Hc H]. unfold connected. rewrite Hc.
  destruct isCluster, H as [H1 H2].
  - destruct (ClusterClient s); [reflexivity | contradiction].
  - destruct (Client s); [reflexivity | contradiction].
Qed.

(** C10.  A store constructed in cluster mode has a nil [Client] and a
    set [ClusterClient]; [Close] on it panics on the nil pointer, in the
    world it was called in: the cluster client is not closed and no call
    reaches it. *)
Theorem Close_cluster_store_dereferences_nil
        (CodecsFromPairs : list string -> gorilla.Codecs) (size : Z)
        (address : list string) (password : string) (keyPairs : list string)
        (w : World) (s : RediStore) (err : option error) (w' : World) :
  NewRediStore CodecsFromPairs true size address password keyPairs w = Ret (s, err) w' ->
  Client s = None
  /\ ClusterClient s <> None
  /\ forall w2,
       Close s w2 = Panicked NilDereference w2
       /\ closed (cluster (final (Close s w2))) = closed (cluster w2)
       /\ calls (cluster (final (Close s w2))) = calls (cluster w2).
Proof.
  intros H. apply NewRediStore_shape in H as [_ [Hc Hcc]].
  repeat split; try assumption; unfold Close, onClient; rewrite Hc; reflexivity.
Qed.

Lemma Close_cluster_store_dereferences_nil_witness :
  NewRediStore Fixture.CodecsFromPairs true 10 Fixture.six "" [] Fixture.world0
  = Ret (Fixture.cluster0, None)
        (mkWorld Fixture.idle (called PING Fixture.idle) ["IDONE"; "IDTWO"])
  /\ Close Fixture.cluster0 Fixture.world0 = Panicked NilDereference Fixture.world0.
Proof.
  split; [reflexivity |].
  apply (proj2 (proj2 (Close_cluster_store_dereferences_nil
                        Fixture.CodecsFromPairs 10 Fixture.six "" [] Fixture.world0
                        Fixture.cluster0 None
                        (mkWorld Fixture.idle (called PING Fixture.idle)
                                 ["IDONE"; "IDTWO"])
                        eq_refl))).
Defined.

(** In single-node mode [Close] closes the client. *)
Lemma Close_single_store_closes :
  Close Fixture.store0 Fixture.world0
  = Ret None (mkWorld (called CLOSE (mkServer None true ∅ [])) Fixture.idle
                      ["IDONE"; "IDTWO"]).
Proof. reflexivity. Qed.

End RedistoreFacts.

(** ** Facts about package mongostore *)
Module MongostoreFacts.
Import gorilla Mongostore.

(** *** Hexadecimal identifiers *)

Lemma length_append (a b : string) :
  String.length (a +:+ b) = (String.length a + String.length b)%nat.
Proof. induction a as [| c a IH]; simpl; [reflexivity | f_equal; exact IH]. Qed.

Lemma length_bigEndian n x : String.length (bigEndian n x) = n.
Proof. induction n as [| n IH]; simpl; [reflexivity | f_equal; exact IH]. Qed.

Lemma length_EncodeToString s :
  String.length (EncodeToString s) = (2 * String.length s)%nat.
Proof. induction s as [| c s IH]; simpl; [reflexivity | rewrite IH; lia]. Qed.

(** The two digits written for a byte read back as that byte. *)
Lemma hex_byte (c : ascii) :
  match fromHexChar (hexdigit (N_of_ascii c / 16)),
        fromHexChar (hexdigit (N_of_ascii c mod 16)) with
  | Some h, Some l => ascii_of_N (h * 16 + l) = c
  | _, _ => False
  end.
Proof.
  destruct c as [[] [] [] [] [] [] [] []]; vm_compute; reflexivity.
Qed.

Lemma DecodeString_EncodeToString s : DecodeString (EncodeToString s) = Some s.
Proof.
  induction s as [| c s IH]; [reflexivity |].
  cbn [EncodeToString DecodeString]. rewrite IH.
  pose proof (hex_byte c) as H.
  destruct (fromHexChar (hexdigit (N_of_ascii c / 16))); [| contradiction].
  destruct (fromHexChar (hexdigit (N_of_ascii c mod 16))); [| contradiction].
  rewrite H. reflexivity.
Qed.

(** Decoding halves the length. *)
Lemma length_DecodeString_bounded n :
  forall s d, (String.length s <= n)%nat -> DecodeString s = Some d ->
              String.length s = (2 * String.length d)%nat.
Proof.
  induction n as [n IH] using lt_wf_ind.
  intros [| a [| b rest]] d Hn H; cbn in H.
  - inversion H. reflexivity.
  - discriminate.
  - destruct (fromHexChar a); [| discriminate].
    destruct (fromHexChar b); [| discriminate].
    destruct (DecodeString rest) as [d' |] eqn:Hrest; [| discriminate].
    inversion H; subst. cbn in Hn |- *.
    rewrite (IH (String.length rest) ltac:(lia) rest d' (le_n _) Hrest). lia.
Qed.

Lemma length_DecodeString s d :
  DecodeString s = Some d -> String.length s = (2 * String.length d)%nat.
Proof. apply (length_DecodeString_bounded (String.length s)). apply le_n. Qed.

(** A well-formed identifier decodes to 12 bytes, and [ObjectIdHex]
    returns them. *)
Lemma IsObjectIdHex_bytes s :
  IsObjectIdHex s = true ->
  exists d, DecodeString s = Some d /\ String.length d = 12%nat
            /\ forall w, ObjectIdHex s w = Ret d w.
Proof.
  unfold IsObjectIdHex, ObjectIdHex.
  destruct (String.length s =? 24)%nat eqn:Hlen; [| discriminate].
  destruct (DecodeString s) as [d |] eqn:Hd; [| discriminate].
  intros _. exists d. apply Nat.eqb_eq in Hlen.
  pose proof (length_DecodeString s d Hd) as H.
  assert (Hd12 : String.length d = 12%nat) by lia.
  repeat split; [exact Hd12 |].
  intros w. rewrite Hd12. reflexivity.
Qed.

(** The identifier [Save] generates is well formed. *)
Lemma NewObjectId_hex w :
  exists oid w',
    NewObjectId w = Ret oid w'
    /\ IsObjectIdHex (EncodeToString oid) = true
    /\ DecodeString (EncodeToString oid) = Some oid
    /\ failure w' = failure w /\ docs w' = docs w /\ clock w' = clock w.
Proof.
  unfold NewObjectId. eexists _, _. split; [reflexivity |].
  split; [| split; [apply DecodeString_EncodeToString | repeat split]].
  unfold IsObjectIdHex. rewrite length_EncodeToString, DecodeString_EncodeToString.
  rewrite !length_append, !length_bigEndian. reflexivity.
Qed.

(** *** The clone scope and [delete] *)

Lemma clone_restored w :
  with_live (Nat.pred (live (with_live (S (live w)) w))) (with_live (S (live w)) w) = w.
Proof. destruct w; reflexivity. Qed.

Lemma document_delete_result m session id w :
  IsObjectIdHex (ID session) = true ->
  DecodeString (ID session) = Some id ->
  delete m session w
  = match failure w with
    | Some e => Ret (Some e) w
    | None =>
        match docs w !! id with
        | Some _ => Ret None (with_docs (base.delete id (docs w)) w)
        | None => Ret (Some ErrNotFound) w
        end
    end.
Proof.
  intros Hok Hid. unfold delete. rewrite Hok. cbn [negb].
  destruct (IsObjectIdHex_bytes _ Hok) as (d & Hd & _ & Hhex).
  rewrite Hid in Hd. inversion Hd; subst d.
  unfold withClone, bind. rewrite Hhex. unfold RemoveId.
  cbn [failure with_live docs].
  destruct (failure w); [rewrite clone_restored; reflexivity |].
  destruct (docs w !! id); [| rewrite clone_restored; reflexivity].
  destruct w; reflexivity.
Qed.

(** [Save] on a session marked for deletion, in terms of [delete]. *)
Lemma document_Save_marked_for_deletion m r w session world :
  (MaxAge (SessionOptions session) < 0)%Z ->
  (forall world',
      delete m session world = Ret None world' ->
      Save m r w session world
      = Ret (SetCookie w (NewCookie (Name session) "" (SessionOptions session)),
             session, None) world'
      /\ exists id, DecodeString (ID session) = Some id /\ docs world' !! id = None)
  /\ (forall e world',
        delete m session world = Ret (Some e) world' ->
        Save m r w session world = Ret (w, session, Some e) world')
  /\ (exists err world', delete m session world = Ret err world')
  /\ (forall v,
        effects (Save m r w (with_Values v session) world)
        = effects (Save m r w session world)).
Proof.
  intros Hage. apply Z.ltb_lt in Hage.
  assert (Hcases : IsObjectIdHex (ID session) = false
                   /\ delete m session world = Ret (Some ErrInvalidId) world
                   \/ exists id, IsObjectIdHex (ID session) = true
                                 /\ DecodeString (ID session) = Some id).
  { destruct (IsObjectIdHex (ID session)) eqn:Hok.
    - right. destruct (IsObjectIdHex_bytes _ Hok) as (d & Hd & _). eauto.
    - left. split; [reflexivity |]. unfold delete. rewrite Hok. reflexivity. }
  split; [| split; [| split]].
  - intros world' Hdel. split.
    + unfold Save, bind. rewrite Hage, Hdel. reflexivity.
    + destruct Hcases as [[_ Hbad] | (id & Hok & Hid)]; [congruence |].
      exists id. split; [exact Hid |].
      rewrite (document_delete_result m session id world Hok Hid) in Hdel.
      destruct (failure world); [discriminate |].
      destruct (docs world !! id); [| discriminate].
      inversion Hdel. cbn. apply lookup_delete_eq.
  - intros e world' Hdel. unfold Save, bind. rewrite Hage, Hdel. reflexivity.
  - destruct Hcases as [[_ Hbad] | (id & Hok & Hid)]; [eauto |].
    rewrite (document_delete_result m session id world Hok Hid).
    destruct (failure world); [eauto |].
    destruct (docs world !! id); eauto.
  - intros v. unfold Save, bind. cbn [SessionOptions with_Values].
    rewrite Hage.
    replace (delete m (with_Values v session) world) with (delete m session world)
      by reflexivity.
    destruct (delete m session world) as [[e |] w1 | p w1]; reflexivity.
Qed.

(** *** [upsert] and the [modified] field *)

(** The three ways [upsert] treats [Values["modified"]], for a session
    whose id is well formed. *)
Lemma upsert_timestamp m session id t w :
  IsObjectIdHex (ID session) = true ->
  DecodeString (ID session) = Some id ->
  Values session !! VString "modified" = Some (VTime t) ->
  upsert m session w
  = match EncodeMultiValues (Codecs m) (Name session) (Values session) with
    | Fail e => Ret (Some e) w
    | Done encoded =>
        match failure w with
        | Some e => Ret (Some e) w
        | None => Ret None (with_docs (<[id := mkSessionItem id encoded t]> (docs w)) w)
        end
    end.
Proof.
  intros Hok Hid Hmod. unfold upsert. rewrite Hok. cbn [negb].
  destruct (IsObjectIdHex_bytes _ Hok) as (d & Hd & _ & Hhex).
  rewrite Hid in Hd. inversion Hd; subst d.
  unfold bind. rewrite Hmod. unfold ret.
  destruct (EncodeMultiValues _ _ _); [| reflexivity].
  rewrite Hhex. unfold withClone, UpsertId. cbn [failure with_live docs Id].
  destruct (failure w); [rewrite clone_restored; reflexivity |].
  destruct w; reflexivity.
Qed.

Lemma upsert_absent m session id w :
  IsObjectIdHex (ID session) = true ->
  DecodeString (ID session) = Some id ->
  Values session !! VString "modified" = None ->
  upsert m session w
  = match EncodeMultiValues (Codecs m) (Name session) (Values session) with
    | Fail e => Ret (Some e) w
    | Done encoded =>
        match failure w with
        | Some e => Ret (Some e) w
        | None =>
            Ret None (with_docs (<[id := mkSessionItem id encoded (clock w)]> (docs w)) w)
        end
    end.
Proof.
  intros Hok Hid Hmod. unfold upsert. rewrite Hok. cbn [negb].
  destruct (IsObjectIdHex_bytes _ Hok) as (d & Hd & _ & Hhex).
  rewrite Hid in Hd. inversion Hd; subst d.
  unfold bind. rewrite Hmod. unfold Now, ret.
  destruct (EncodeMultiValues _ _ _); [| reflexivity].
  rewrite Hhex. unfold withClone, UpsertId. cbn [failure with_live docs Id].
  destruct (failure w); [rewrite clone_restored; reflexivity |].
  destruct w; reflexivity.
Qed.

Lemma upsert_mistyped m session v w :
  IsObjectIdHex (ID session) = true ->
  Values session !! VString "modified" = Some v ->
  (forall t, v <> VTime t) ->
  upsert m session w = Ret (Some ErrInvalidModified) w.
Proof.
  intros Hok Hmod Hv. unfold upsert. rewrite Hok. cbn [negb].
  unfold bind. rewrite Hmod.
  destruct v as [x | x | x | t]; try reflexivity.
  exfalso. apply (Hv t). reflexivity.
Qed.

(** The first step of [Save] on a session that is not marked for deletion
    leaves a session with a well-formed id. *)
Lemma Save_assigns_id session world :
  ID session = "" \/ IsObjectIdHex (ID session) = true ->
  exists session' world1 id,
    (if String.eqb (ID session) "" then
       let* oid := NewObjectId in ret (with_ID (EncodeToString oid) session)
     else ret session) world = Ret session' world1
    /\ IsObjectIdHex (ID session') = true
    /\ DecodeString (ID session') = Some id
    /\ Name session' = Name session
    /\ Values session' = Values session
    /\ failure world1 = failure world
    /\ docs world1 = docs world
    /\ clock world1 = clock world.
Proof.
  intros Hid. destruct (String.eqb (ID session) "") eqn:Hempty.
  - destruct (NewObjectId_hex world) as (oid & w' & Hnew & Hok & Hdec & Hf & Hd & Hc).
    exists (with_ID (EncodeToString oid) session), w', oid.
    unfold bind. rewrite Hnew. repeat split; assumption.
  - destruct Hid as [Hid | Hok].
    + rewrite Hid in Hempty. discriminate.
    + destruct (IsObjectIdHex_bytes _ Hok) as (d & Hd & _).
      exists session, world, d. repeat split; assumption.
Qed.

(** C8, amended.  On [Save] of a session whose [MaxAge] is not negative
    and whose id is empty or a well-formed document identifier:
    when [Values["modified"]] is a timestamp the record upserted carries
    it; when it is present and not a timestamp [Save] returns the
    typed-value error and the collection is unchanged; when it is absent
    the record carries the current time. *)
Theorem Save_modified_field (m : MongoStore) (r : Request) (w : ResponseWriter)
        (session : Session) (world : World) :
  (0 <= MaxAge (SessionOptions session))%Z ->
  ID session = "" \/ IsObjectIdHex (ID session) = true ->
  (forall t encoded,
      Values session !! VString "modified" = Some (VTime t) ->
      failure world = None ->
      EncodeMultiValues (Codecs m) (Name session) (Values session) = Done encoded ->
      exists w' session' err world' id,
        Save m r w session world = Ret (w', session', err) world'
        /\ DecodeString (ID session') = Some id
        /\ docs world' !! id = Some (mkSessionItem id encoded t))
  /\ (forall v,
        Values session !! VString "modified" = Some v ->
        (forall t, v <> VTime t) ->
        exists session' world',
          Save m r w session world = Ret (w, session', Some ErrInvalidModified) world'
          /\ docs world' = docs world)
  /\ (forall encoded,
        Values session !! VString "modified" = None ->
        failure world = None ->
        EncodeMultiValues (Codecs m) (Name session) (Values session) = Done encoded ->
        exists w' session' err world' id,
          Save m r w session world = Ret (w', session', err) world'
          /\ DecodeString (ID session') = Some id
          /\ docs world' !! id = Some (mkSessionItem id encoded (clock world))).
Proof.
  intros Hage Hid. apply Z.ltb_ge in Hage.
  destruct (Save_assigns_id session world Hid)
    as (session' & world1 & id & Hgen & Hok & Hdec & Hname & Hvals & Hf & Hd & Hc).
  assert (Hwritten : forall t encoded,
             failure world = None ->
             EncodeMultiValues (Codecs m) (Name session) (Values session) = Done encoded ->
             upsert m session' world1
             = Ret None (with_docs (<[id := mkSessionItem id encoded t]> (docs world1))
                                   world1) ->
             exists w' session'' err world' id',
               Save m r w session world = Ret (w', session'', err) world'
               /\ DecodeString (ID session'') = Some id'
               /\ docs world' !! id' = Some (mkSessionItem id' encoded t)).
  { intros t encoded Hup Henc Hups.
    destruct (EncodeMultiID (Codecs m) (Name session') (ID session')) as [c | e] eqn:Hc'.
    - eexists _, session', None, _, id. split; [| split; [exact Hdec |]].
      + unfold Save. rewrite Hage. unfold bind at 1. rewrite Hgen.
        unfold bind. rewrite Hups, Hc'. reflexivity.
      + cbn. apply lookup_insert_eq.
    - eexists w, session', (Some e), _, id. split; [| split; [exact Hdec |]].
      + unfold Save. rewrite Hage. unfold bind at 1. rewrite Hgen.
        unfold bind. rewrite Hups, Hc'. reflexivity.
      + cbn. apply lookup_insert_eq. }
  split; [| split].
  - intros t encoded Hmod Hup Henc. apply (Hwritten t encoded Hup Henc).
    rewrite (upsert_timestamp m session' id t world1 Hok Hdec)
      by (rewrite Hvals; exact Hmod).
    rewrite Hname, Hvals, Henc, Hf, Hup. reflexivity.
  - intros v Hmod Hv. exists session', world1. split; [| exact Hd].
    unfold Save. rewrite Hage. unfold bind at 1. rewrite Hgen.
    unfold bind.
    rewrite (upsert_mistyped m session' v world1 Hok) by
      (try assumption; rewrite Hvals; exact Hmod).
    reflexivity.
  - intros encoded Hmod Hup Henc. rewrite <- Hc. apply (Hwritten _ encoded Hup Henc).
    rewrite (upsert_absent m session' id world1 Hok Hdec)
      by (rewrite Hvals; exact Hmod).
    rewrite Hname, Hvals, Henc, Hf, Hup. reflexivity.
Qed.

Lemma Save_modified_field_witness :
  (exists w' session' err world' id,
      Save Fixture.mongo0 Fixture.request_none [] Fixture.doc_stamped Fixture.db0
      = Ret (w', session', err) world'
      /\ DecodeString (ID session') = Some id
      /\ docs world' !! id
         = Some (mkSessionItem id "sid|xxxxxxxx" 1650000000))
  /\ (exists session' world',
        Save Fixture.mongo0 Fixture.request_none [] Fixture.doc_mistyped Fixture.db_saved
        = Ret ([], session', Some ErrInvalidModified) world'
        /\ docs world' = docs Fixture.db_saved)
  /\ (exists w' session' err world' id,
        Save Fixture.mongo0 Fixture.request_none [] Fixture.doc_plain Fixture.db0
        = Ret (w', session', err) world'
        /\ DecodeString (ID session') = Some id
        /\ docs world' !! id
           = Some (mkSessionItem id "sid|xxxxxxxx" 1700000000)).
Proof.
  split; [| split].
  - apply (proj1 (Save_modified_field Fixture.mongo0 Fixture.request_none []
                    Fixture.doc_stamped Fixture.db0
                    ltac:(cbn; lia) (or_intror eq_refl))
                 1650000000%Z "sid|xxxxxxxx"); reflexivity.
  - apply (proj1 (proj2 (Save_modified_field Fixture.mongo0 Fixture.request_none []
                           Fixture.doc_mistyped Fixture.db_saved
                           ltac:(cbn; lia) (or_intror eq_refl)))
                 (VString "yesterday")); [reflexivity | discriminate].
  - apply (proj2 (proj2 (Save_modified_field Fixture.mongo0 Fixture.request_none []
                           Fixture.doc_plain Fixture.db0
                           ltac:(cbn; lia) (or_intror eq_refl)))
                 "sid|xxxxxxxx"); reflexivity.
Defined.

(** The claim C8 as stated fails for a session whose id is not a document
    identifier, such as [New] yields for a cookie that carries the id
    [abc]: [Values["modified"]] is present and not a timestamp, and [Save]
    returns the invalid-id error, not the typed-value error. *)
Lemma Save_foreign_id_is_invalid_id :
  New Fixture.mongo0 Fixture.request_abc "sid" Fixture.db0
  = Ret (mkSession "abc" ∅ Fixture.half_hour true "sid", None) Fixture.db0
  /\ (0 <= MaxAge (SessionOptions Fixture.doc_foreign))%Z
  /\ Values Fixture.doc_foreign !! VString "modified" = Some (VString "yesterday")
  /\ Save Fixture.mongo0 Fixture.request_none [] Fixture.doc_foreign Fixture.db0
     = Ret ([], Fixture.doc_foreign, Some ErrInvalidId) Fixture.db0
  /\ ~ exists w' session' world',
        Save Fixture.mongo0 Fixture.request_none [] Fixture.doc_foreign Fixture.db0
        = Ret (w', session', Some ErrInvalidModified) world'.
Proof.
  split; [reflexivity |].
  split; [cbn; lia |]. split; [reflexivity |]. split; [reflexivity |].
  intros (w' & session' & world' & H). vm_compute in H. discriminate H.
Qed.

End MongostoreFacts.

(** ** Facts about package sessions *)
Module SessionsFacts.
Import Sessions.

Section Wrapper.

Context {W : Type}.
Variable logPrintf : error -> M W unit.

(** [GetSession] does not touch the flag. *)
Lemma GetSession_keeps_flag (s s' : Session W) g (w w' : W) :
  GetSession logPrintf s w = Ret (s', g) w' -> valueChanged s' = valueChanged s.
Proof.
  unfold GetSession. destruct (session s) as [g0 |].
  - unfold ret. intros H. inversion H. reflexivity.
  - unfold bind.
    destruct (StoreGet (store s) (request s) (name s) w) as [[g1 err] w1 | p w1];
      [| discriminate].
    destruct err as [e |].
    + destruct (logPrintf e w1); [| discriminate].
      unfold ret. intros H. inversion H. reflexivity.
    + unfold ret. intros H. inversion H. reflexivity.
Qed.

(** C7.  [Save] with the flag down returns nil and leaves wrapper and
    world as they are.  When [Save] returns nil the flag is down
    afterwards, so that a second [Save] right after it is such a no-op:
    of two calls in a row only the first reaches the store.  When [Save]
    returns an error the flag stays up. *)
Theorem Save_gated_by_valueChanged (s : Session W) (w : W) :
  (valueChanged s = false -> Save logPrintf s w = Ret (s, None) w)
  /\ match Save logPrintf s w with
     | Ret (s1, None) w1 =>
         valueChanged s1 = false /\ Save logPrintf s1 w1 = Ret (s1, None) w1
     | Ret (s1, Some e) w1 =>
         valueChanged s = true /\ valueChanged s1 = true
     | Panicked _ _ => True
     end.
Proof.
  unfold Save at 1 2. destruct (valueChanged s) eqn:Hv.
  - split; [discriminate |].
    unfold bind.
    destruct (GetSession logPrintf s w) as [[s' g] w0 | p w0] eqn:Hget; [| exact I].
    apply GetSession_keeps_flag in Hget.
    destruct g as [g |]; [| exact I]. cbn [deref ret].
    destruct (StoreSave (store s') (request s') (writer s') g w0)
      as [[[w' g'] [e |]] w2 | p w2]; [| | exact I].
    + split; [reflexivity |]. cbn. rewrite Hget. exact Hv.
    + split; reflexivity.
  - split; [reflexivity |]. unfold ret.
    split; [exact Hv |]. unfold Save. rewrite Hv. reflexivity.
Qed.

(** [Delete] raises the flag. *)
Lemma Delete_marks_changed (s s' : Session W) (key : value) (w w' : W) :
  Delete logPrintf s key w = Ret s' w' -> valueChanged s' = true.
Proof.
  unfold Delete, bind.
  destruct (GetSession logPrintf s w) as [[s0 g] w0 | p w0]; [| discriminate].
  destruct g as [g |]; [| discriminate]. cbn [deref ret].
  intros H. inversion H. reflexivity.
Qed.

End Wrapper.

Lemma Save_gated_by_valueChanged_witness :
  Save Fixture.quiet Fixture.wrapper0 Fixture.world0
  = Ret (Fixture.wrapper0, None) Fixture.world0.
Proof.
  exact (proj1 (Save_gated_by_valueChanged Fixture.quiet Fixture.wrapper0 Fixture.world0)
               eq_refl).
Defined.

(** On a redis-backed wrapper: [Set] saves once, and of the two [Save]
    calls after [Delete] only the first one writes. *)
Example two_saves_one_write :
  match Fixture.set_delete_save_save Fixture.world0 with
  | Ret (_, e1, e2) world =>
      e1 = None /\ e2 = None
      /\ Redistore.calls (Redistore.node world)
         = [Redistore.SET "session_IDONE" "sid|xxxxxxxx" 2592000000000000;
            Redistore.SET "session_IDONE" "sid|" 2592000000000000]
  | Panicked _ _ => False
  end.
Proof. vm_compute. repeat split. Qed.

End SessionsFacts.

(** ** Both stores *)
Module StoreFacts.
Import gorilla.

(** C4, amended.  On a session whose [MaxAge] is negative, [Save] never
    reads the session's values.  The cache store sends one DEL for
    [keyPrefix + id]: when the backend can be reached the record under that
    key is gone afterwards (whether or not there was one), the response gets
    a cookie with the empty value and [Save] returns nil; when it cannot,
    [Save] returns the error, the response is as it was and no record
    changes.  The document store removes the document and sets that cookie
    only when the session's id is a well-formed identifier, the database can
    be reached and holds a document under the id; otherwise [Save] returns
    an error (invalid id, the error of the database, not found), the
    response is as it was and the world is unchanged. *)
Theorem Save_negative_MaxAge
        (s : Redistore.RediStore) (m : Mongostore.MongoStore) (r : Request)
        (w : ResponseWriter) (session : Session)
        (cache : Redistore.World) (db : Mongostore.World) :
  Redistore.connected s = true ->
  (MaxAge (SessionOptions session) < 0)%Z ->
  let key := Redistore.keyPrefix s +:+ ID session in
  let cookie := NewCookie (Name session) "" (SessionOptions session) in
  (Redistore.unavailable (Redistore.backend s cache) = None ->
   Redistore.Save s r w session cache
   = Ret (w ++ [cookie], session, None)
         (Redistore.put_backend s
            (Redistore.called (Redistore.DEL key)
               (Redistore.with_keys
                  (base.delete key (Redistore.keys (Redistore.backend s cache)))
                  (Redistore.backend s cache)))
            cache)
   /\ base.delete key (Redistore.keys (Redistore.backend s cache)) !! key = None)
  /\ (forall e,
        Redistore.unavailable (Redistore.backend s cache) = Some e ->
        Redistore.Save s r w session cache
        = Ret (w, session, Some e)
              (Redistore.put_backend s
                 (Redistore.called (Redistore.DEL key) (Redistore.backend s cache))
                 cache))
  /\ (forall id item,
        Mongostore.IsObjectIdHex (ID session) = true ->
        Mongostore.DecodeString (ID session) = Some id ->
        Mongostore.failure db = None ->
        Mongostore.docs db !! id = Some item ->
        Mongostore.Save m r w session db
        = Ret (w ++ [cookie], session, None)
              (Mongostore.with_docs (base.delete id (Mongostore.docs db)) db)
        /\ base.delete id (Mongostore.docs db) !! id = None)
  /\ (forall id,
        Mongostore.IsObjectIdHex (ID session) = true ->
        Mongostore.DecodeString (ID session) = Some id ->
        Mongostore.failure db = None ->
        Mongostore.docs db !! id = None ->
        Mongostore.Save m r w session db = Ret (w, session, Some ErrNotFound) db)
  /\ (forall e,
        Mongostore.IsObjectIdHex (ID session) = true ->
        Mongostore.failure db = Some e ->
        Mongostore.Save m r w session db = Ret (w, session, Some e) db)
  /\ (Mongostore.IsObjectIdHex (ID session) = false ->
      Mongostore.Save m r w session db = Ret (w, session, Some ErrInvalidId) db)
  /\ (forall v,
        effects (Redistore.Save s r w (with_Values v session) cache)
        = effects (Redistore.Save s r w session cache))
  /\ (forall v,
        effects (Mongostore.Save m r w (with_Values v session) db)
        = effects (Mongostore.Save m r w session db)).
Proof.
  intros Hs Hage key cookie.
  destruct (RedistoreFacts.cache_Save_marked_for_deletion s r w session cache Hs Hage)
    as (_ & _ & _ & Hcache_values).
  destruct (MongostoreFacts.document_Save_marked_for_deletion m r w session db Hage)
    as (_ & _ & _ & Hdb_values).
  apply Z.ltb_lt in Hage.
  assert (Hredis : Redistore.Save s r w session cache
                   = match snd (fst (Redistore.cmdDel key (Redistore.backend s cache))) with
                     | Some e =>
                         Ret (w, session, Some e)
                             (Redistore.put_backend s
                                (snd (Redistore.cmdDel key (Redistore.backend s cache)))
                                cache)
                     | None =>
                         Ret (w ++ [cookie], session, None)
                             (Redistore.put_backend s
                                (snd (Redistore.cmdDel key (Redistore.backend s cache)))
                                cache)
                     end).
  { unfold Redistore.Save. rewrite Hage. unfold bind.
    rewrite (RedistoreFacts.cache_delete_result s session cache Hs).
    fold key. destruct (snd (fst (Redistore.cmdDel key (Redistore.backend s cache))));
      reflexivity. }
  assert (Hmongo : forall id,
             Mongostore.IsObjectIdHex (ID session) = true ->
             Mongostore.DecodeString (ID session) = Some id ->
             Mongostore.Save m r w session db
             = match Mongostore.failure db with
               | Some e => Ret (w, session, Some e) db
               | None =>
                   match Mongostore.docs db !! id with
                   | Some _ =>
                       Ret (w ++ [cookie], session, None)
                           (Mongostore.with_docs (base.delete id (Mongostore.docs db)) db)
                   | None => Ret (w, session, Some ErrNotFound) db
                   end
               end).
  { intros id Hok Hid. unfold Mongostore.Save. rewrite Hage. unfold bind.
    rewrite (MongostoreFacts.document_delete_result m session id db Hok Hid).
    destruct (Mongostore.failure db); [reflexivity |].
    destruct (Mongostore.docs db !! id); reflexivity. }
  split; [| split; [| split; [| split; [| split; [| split; [| split]]]]]].
  - intros Hup. rewrite Hredis. unfold Redistore.cmdDel. rewrite Hup. cbn [fst snd].
    split; [reflexivity | apply lookup_delete_eq].
  - intros e Hdown. rewrite Hredis. unfold Redistore.cmdDel. rewrite Hdown. reflexivity.
  - intros id item Hok Hid Hf Hdoc. rewrite (Hmongo id Hok Hid), Hf, Hdoc.
    split; [reflexivity | apply lookup_delete_eq].
  - intros id Hok Hid Hf Hdoc. rewrite (Hmongo id Hok Hid), Hf, Hdoc. reflexivity.
  - intros e Hok Hf.
    destruct (MongostoreFacts.IsObjectIdHex_bytes _ Hok) as (id & Hid & _).
    rewrite (Hmongo id Hok Hid), Hf. reflexivity.
  - intros Hno. unfold Mongostore.Save. rewrite Hage. unfold bind, Mongostore.delete.
    rewrite Hno. reflexivity.
  - exact Hcache_values.
  - exact Hdb_values.
Qed.

(** Both stores remove a record that is there. *)
Lemma Save_negative_MaxAge_witness :
  (Redistore.keys (Redistore.node Fixture.world_saved) !! "session_abc"
   = Some ("sid|", 5%Z)
   /\ Redistore.Save Fixture.store0 Fixture.request_abc [] Fixture.session_expired
                     Fixture.world_saved
      = Ret ([NewCookie "sid" "" Fixture.expired], Fixture.session_expired, None)
            (Redistore.mkWorld
               (Redistore.mkServer None false ∅ [Redistore.DEL "session_abc"])
               Fixture.idle []))
  /\ (Mongostore.docs Fixture.db_saved !! Fixture.oid_bytes = Some Fixture.item0
      /\ Mongostore.Save Fixture.mongo0 Fixture.request_none [] Fixture.doc_expired
                         Fixture.db_saved
         = Ret ([NewCookie "sid" "" Fixture.expired], Fixture.doc_expired, None)
               (Mongostore.with_docs ∅ Fixture.db_saved)).
Proof.
  split; (split; [reflexivity |]).
  - exact (proj1 (proj1 (Save_negative_MaxAge Fixture.store0 Fixture.mongo0
                           Fixture.request_abc [] Fixture.session_expired
                           Fixture.world_saved Fixture.db_saved
                           eq_refl ltac:(cbn; lia))
                        eq_refl)).
  - exact (proj1 (proj1 (proj2 (proj2 (Save_negative_MaxAge Fixture.store0 Fixture.mongo0
                                         Fixture.request_none [] Fixture.doc_expired
                                         Fixture.world_saved Fixture.db_saved
                                         eq_refl ltac:(cbn; lia))))
                        Fixture.oid_bytes Fixture.item0 eq_refl eq_refl eq_refl eq_refl)).
Defined.

(** The claim C4 as stated fails on the document store: with a database
    that can be reached, [Save] of a session marked for deletion sets no
    cookie and returns an error when the session was never saved (its id is
    empty, and no operation reaches the database) and when no document is
    stored under its id. *)
Lemma Save_negative_MaxAge_document_sets_no_cookie :
  (MaxAge (SessionOptions Sample.fresh_expired) < 0)%Z
  /\ Mongostore.failure Fixture.db_saved = None
  /\ Mongostore.Save Fixture.mongo0 Fixture.request_none [] Sample.fresh_expired
                     Fixture.db_saved
     = Ret ([], Sample.fresh_expired, Some ErrInvalidId) Fixture.db_saved
  /\ Mongostore.Save Fixture.mongo0 Fixture.request_none [] Fixture.doc_expired
                     Fixture.db0
     = Ret ([], Fixture.doc_expired, Some ErrNotFound) Fixture.db0
  /\ ~ exists w' session' e db',
        Mongostore.Save Fixture.mongo0 Fixture.request_none [] Sample.fresh_expired
                        Fixture.db_saved
        = Ret (w', session', e) db'
        /\ w' = [NewCookie "sid" "" Fixture.expired].
Proof.
  split; [cbn; lia |]. split; [reflexivity |]. split; [reflexivity |].
  split; [reflexivity |].
  intros (w' & session' & e & db' & H & Hw). subst w'.
  vm_compute in H. discriminate H.
Qed.

End StoreFacts.

(** ** Further facts about package redistore *)
Module RedistoreMore.
Import gorilla Redistore.

(** *** What a command leaves alone *)

Lemma cmdSet_frame key val expiration sv :
  (forall k, k <> key -> keys (snd (cmdSet key val expiration sv)) !! k = keys sv !! k)
  /\ unavailable (snd (cmdSet key val expiration sv)) = unavailable sv.
Proof.
  unfold cmdSet. destruct (unavailable sv) eqn:Hup; cbn.
  - split; [reflexivity | exact Hup].
  - split; [| exact Hup]. intros k Hk. apply lookup_insert_ne. congruence.
Qed.

Lemma cmdDel_frame key sv :
  (forall k, k <> key -> keys (snd (cmdDel key sv)) !! k = keys sv !! k)
  /\ unavailable (snd (cmdDel key sv)) = unavailable sv.
Proof.
  unfold cmdDel. destruct (unavailable sv) eqn:Hup; cbn.
  - split; [reflexivity | exact Hup].
  - split; [| exact Hup]. intros k Hk. apply lookup_delete_ne. congruence.
Qed.

Lemma cmdGet_frame key sv :
  keys (snd (cmdGet key sv)) = keys sv
  /\ unavailable (snd (cmdGet key sv)) = unavailable sv.
Proof.
  unfold cmdGet. destruct (unavailable sv) eqn:Hup; cbn.
  - split; [reflexivity | exact Hup].
  - destruct (keys sv !! key) as [[v t] |]; cbn; split; try reflexivity; exact Hup.
Qed.

(** *** [Save] *)

(** Everything [Save] does on a store whose client is set. *)
Lemma cache_Save_outcome s r w session world :
  connected s = true ->
  exists w' session' e world',
    Save s r w session world = Ret (w', session', e) world'
    /\ Terms.same_but_ID session session'
    /\ (ID session <> "" \/ (MaxAge (SessionOptions session) < 0)%Z -> session' = session)
    /\ Terms.cookie_iff_nil w w' session e
    /\ (forall k, k <> keyPrefix s +:+ ID session' ->
                  keys (backend s world') !! k = keys (backend s world) !! k)
    /\ unavailable (backend s world') = unavailable (backend s world)
    /\ keys (Terms.idle_side s world') = keys (Terms.idle_side s world)
    /\ calls (Terms.idle_side s world') = calls (Terms.idle_side s world).
Proof.
  intros Hs. unfold Save.
  destruct (MaxAge (SessionOptions session) <? 0)%Z eqn:Hage.
  - unfold bind. rewrite (RedistoreFacts.cache_delete_result s session world Hs).
    destruct (cmdDel_frame (keyPrefix s +:+ ID session) (backend s world)) as [Hk Hu].
    destruct (cmdDel (keyPrefix s +:+ ID session) (backend s world)) as [[n e] sv].
    cbn [fst snd] in *.
    assert (Hside : forall sv0, Terms.idle_side s (put_backend s sv0 world)
                                = Terms.idle_side s world).
    { intros sv0. unfold Terms.idle_side, put_backend. destruct (IsCluster s); reflexivity. }
    destruct e as [e |]; eexists _, session, _, _; (split; [reflexivity |]);
      rewrite RedistoreFacts.backend_put_backend, Hside;
      repeat split; try assumption; try reflexivity.
    exists "". reflexivity.
  - assert (Hgen : exists session1 world1,
               (if String.eqb (ID session) "" then
                  let* id := generateID in ret (with_ID id session)
                else ret session) world = Ret session1 world1
               /\ Terms.same_but_ID session session1
               /\ (ID session <> "" -> session1 = session)
               /\ backend s world1 = backend s world
               /\ Terms.idle_side s world1 = Terms.idle_side s world).
    { destruct (String.eqb (ID session) "") eqn:Hid.
      - apply String.eqb_eq in Hid. unfold bind, generateID, ret.
        destruct (entropy world) as [| id rest]; eexists _, _;
          (split; [reflexivity |]); repeat split; try contradiction;
          unfold backend, Terms.idle_side; destruct (IsCluster s); reflexivity.
      - exists session, world. repeat split. }
    destruct Hgen as (session1 & world1 & Hgen & Hsame & Hkeep & Hback & Hside).
    assert (Hkeep' : ID session <> "" \/ (MaxAge (SessionOptions session) < 0)%Z ->
                     session1 = session).
    { intros [H | H]; [exact (Hkeep H) |]. apply Z.ltb_ge in Hage. lia. }
    assert (Hput : forall sv0, Terms.idle_side s (put_backend s sv0 world1)
                               = Terms.idle_side s world1).
    { intros sv0. unfold Terms.idle_side, put_backend. destruct (IsCluster s); reflexivity. }
    destruct Hsame as (Hname & Hvals & Hopts & Hnew).
    unfold bind at 1. rewrite Hgen. unfold bind, save. rewrite Hname, Hvals.
    destruct (EncodeMultiValues (Codecs s) (Name session) (Values session)) as [encoded | e0].
    + destruct (negb (maxLength s =? 0)%Z
                && (maxLength s <? Z.of_nat (String.length encoded))%Z).
      * eexists w, session1, _, world1. split; [reflexivity |].
        rewrite Hback, Hside. repeat split; assumption.
      * unfold bind. rewrite (RedistoreFacts.dispatch s _ world1 Hs).
        match goal with
        | |- context [cmdSet ?k ?v ?t (backend s world1)] =>
            destruct (cmdSet_frame k v t (backend s world1)) as [Hk Hu];
            destruct (cmdSet k v t (backend s world1)) as [[reply e] sv]
        end.
        cbn [fst snd] in *. unfold ret.
        destruct e as [e |].
        -- eexists w, session1, _, _. split; [reflexivity |].
           rewrite RedistoreFacts.backend_put_backend, Hput, Hside, <- Hback.
           repeat split; assumption.
        -- rewrite Hopts.
           destruct (EncodeMultiID (Codecs s) (Name session) (ID session1)) as [c | e1];
             eexists _, session1, _, _; (split; [reflexivity |]);
             rewrite RedistoreFacts.backend_put_backend, Hput, Hside, <- Hback;
             repeat split; try assumption.
           exists c. reflexivity.
    + eexists w, session1, _, world1. split; [reflexivity |].
      rewrite Hback, Hside. repeat split; assumption.
Qed.

(** X1.  [Save] on a store whose client is set never panics and changes
    no record but the one under [keyPrefix + id] of the session it returns;
    the deployment of the other mode sees no call and no change. *)
Theorem cache_Save_leaves_other_records (s : RediStore) (r : Request)
        (w : ResponseWriter) (session : Session) (world : World) :
  connected s = true ->
  exists w' session' e world',
    Save s r w session world = Ret (w', session', e) world'
    /\ (forall k, k <> keyPrefix s +:+ ID session' ->
                  keys (backend s world') !! k = keys (backend s world) !! k)
    /\ keys (Terms.idle_side s world') = keys (Terms.idle_side s world)
    /\ calls (Terms.idle_side s world') = calls (Terms.idle_side s world).
Proof.
  intros Hs.
  destruct (cache_Save_outcome s r w session world Hs)
    as (w' & session' & e & world' & H & _ & _ & _ & Hk & _ & Hi & Hc).
  exists w', session', e, world'. repeat split; assumption.
Qed.

Lemma cache_Save_leaves_other_records_witness :
  exists w' session' e world',
    Save Sample.store Fixture.request_none [] Sample.fresh_counted Fixture.world_saved
    = Ret (w', session', e) world'
    /\ (forall k, k <> "session_" +:+ ID session' ->
                  keys (node world') !! k = keys (node Fixture.world_saved) !! k)
    /\ keys (cluster world') = keys (cluster Fixture.world_saved)
    /\ calls (cluster world') = calls (cluster Fixture.world_saved).
Proof.
  exact (cache_Save_leaves_other_records Sample.store Fixture.request_none []
           Sample.fresh_counted Fixture.world_saved eq_refl).
Defined.

(** X2.  [Save] adds exactly one cookie to the response when it returns
    nil, named after the session and carrying its options, and leaves the
    response as it was when it returns an error. *)
Theorem cache_Save_cookie_iff_nil (s : RediStore) (r : Request)
        (w : ResponseWriter) (session : Session) (world : World) :
  connected s = true ->
  exists w' session' e world',
    Save s r w session world = Ret (w', session', e) world'
    /\ match e with
       | None => exists v, w' = w ++ [NewCookie (Name session) v (SessionOptions session)]
       | Some _ => w' = w
       end.
Proof.
  intros Hs.
  destruct (cache_Save_outcome s r w session world Hs)
    as (w' & session' & e & world' & H & _ & _ & Hc & _).
  exists w', session', e, world'. split; assumption.
Qed.

Lemma cache_Save_cookie_iff_nil_witness :
  exists w' session' e world',
    Save Sample.store Fixture.request_none [] Sample.fresh_counted Fixture.world_down
    = Ret (w', session', e) world'
    /\ match e with
       | None => exists v, w' = [] ++ [NewCookie "sid" v Fixture.half_hour]
       | Some _ => w' = []
       end.
Proof.
  exact (cache_Save_cookie_iff_nil Sample.store Fixture.request_none []
           Sample.fresh_counted Fixture.world_down eq_refl).
Defined.

(** On an unreachable backend that is the error branch; on a reachable one
    the cookie carries the encoded id. *)
Example cache_Save_cookie_samples :
  Save Sample.store Fixture.request_none [] Sample.fresh_counted Fixture.world_down
  = Ret ([], Sample.saved_counted, Some (ErrNet "dial tcp: connection refused"))
        (mkWorld (called (SET "session_IDONE" "sid|count=1" 1800000000000)
                         Fixture.unreachable)
                 Fixture.unreachable ["IDTWO"])
  /\ fst (effects (Save Sample.store Fixture.request_none [] Sample.fresh_counted
                        Fixture.world0))
     = Some ([NewCookie "sid" "sid|IDONE" Fixture.half_hour], None).
Proof. split; reflexivity. Qed.

(** X3.  [Save] returns the session with the name, values, options and
    [IsNew] it was given, and with the id it was given when that id is not
    empty: an id, once assigned, is kept. *)
Theorem cache_Save_keeps_session (s : RediStore) (r : Request)
        (w : ResponseWriter) (session : Session) (world : World) :
  connected s = true ->
  exists w' session' e world',
    Save s r w session world = Ret (w', session', e) world'
    /\ Name session' = Name session
    /\ Values session' = Values session
    /\ SessionOptions session' = SessionOptions session
    /\ IsNew session' = IsNew session
    /\ (ID session <> "" -> session' = session).
Proof.
  intros Hs.
  destruct (cache_Save_outcome s r w session world Hs)
    as (w' & session' & e & world' & H & (Hn & Hv & Ho & Hi) & Hk & _).
  exists w', session', e, world'. repeat split; try assumption.
  intros Hid. apply Hk. left. exact Hid.
Qed.

Lemma cache_Save_keeps_session_witness :
  exists w' session' e world',
    Save Sample.store Fixture.request_none [] Sample.saved_counted Fixture.world0
    = Ret (w', session', e) world'
    /\ Name session' = "sid"
    /\ Values session' = Sample.counted
    /\ SessionOptions session' = Fixture.half_hour
    /\ IsNew session' = true
    /\ ("IDONE" <> "" -> session' = Sample.saved_counted).
Proof.
  exact (cache_Save_keeps_session Sample.store Fixture.request_none []
           Sample.saved_counted Fixture.world0 eq_refl).
Defined.

(** The first step of [Save] on a session that is not marked for deletion. *)
Lemma cache_assign_id s session world :
  exists session1 world1,
    (if String.eqb (ID session) "" then
       let* id := generateID in ret (with_ID id session)
     else ret session) world = Ret session1 world1
    /\ Terms.same_but_ID session session1
    /\ backend s world1 = backend s world.
Proof.
  destruct (String.eqb (ID session) "") eqn:Hid.
  - unfold bind, generateID, ret.
    destruct (entropy world) as [| id rest]; eexists _, _;
      (split; [reflexivity |]); repeat split;
      unfold backend; destruct (IsCluster s); reflexivity.
  - exists session, world. repeat split.
Qed.

(** What a nil result of [Save] on a session that is not marked for deletion
    tells. *)
Lemma cache_Save_nil_inv (s : RediStore) (r : Request)
        (w w' : ResponseWriter) (session session' : Session) (world world' : World) :
  connected s = true ->
  (0 <= MaxAge (SessionOptions session))%Z ->
  Save s r w session world = Ret (w', session', None) world' ->
  exists encoded c,
    EncodeMultiValues (Codecs s) (Name session) (Values session) = Done encoded
    /\ (maxLength s = 0 \/ Z.of_nat (String.length encoded) <= maxLength s)%Z
    /\ EncodeMultiID (Codecs s) (Name session) (ID session') = Done c
    /\ w' = w ++ [NewCookie (Name session) c (SessionOptions session)]
    /\ keys (backend s world') !! (keyPrefix s +:+ ID session')
       = Some (encoded, ttl s session)
    /\ unavailable (backend s world') = None.
Proof.
  intros Hs Hage. apply Z.ltb_ge in Hage.
  destruct (cache_assign_id s session world)
    as (session1 & world1 & Hgen & (Hname & Hvals & Hopts & Hnew) & Hback).
  unfold Save. rewrite Hage. unfold bind at 1. rewrite Hgen.
  unfold bind, save. rewrite Hname, Hvals, Hopts.
  destruct (EncodeMultiValues (Codecs s) (Name session) (Values session))
    as [encoded | e0] eqn:Henc; [| discriminate].
  destruct (negb (maxLength s =? 0)%Z
            && (maxLength s <? Z.of_nat (String.length encoded))%Z) eqn:Hguard;
    [discriminate |].
  unfold bind. rewrite (RedistoreFacts.dispatch s _ world1 Hs).
  unfold cmdSet. rewrite Hback.
  destruct (unavailable (backend s world)) as [e |] eqn:Hup; [discriminate |].
  cbn [fst snd]. unfold ret.
  destruct (EncodeMultiID (Codecs s) (Name session) (ID session1)) as [c | e1] eqn:Hc;
    [| discriminate].
  intros H. inversion H; subst. exists encoded, c.
  split; [reflexivity |]. split.
  { apply andb_false_iff in Hguard as [Hz | Hl].
    - left. apply negb_false_iff, Z.eqb_eq in Hz. exact Hz.
    - right. apply Z.ltb_ge in Hl. exact Hl. }
  split; [exact Hc |]. split; [reflexivity |].
  rewrite RedistoreFacts.backend_put_backend. split.
  - cbn. apply lookup_insert_eq.
  - exact Hup.
Qed.

(** X4.  When [Save] on a session that is not marked for deletion returns
    nil, the values encoded and fit the length limit, the backend holds the
    encoded values under [keyPrefix + id] with the session's expiration
    ([MaxAge], or [DefaultMaxAge] when that is 0), and the one cookie added
    carries the encoded id. *)
Theorem cache_Save_nil_stores_record (s : RediStore) (r : Request)
        (w w' : ResponseWriter) (session session' : Session) (world world' : World) :
  connected s = true ->
  (0 <= MaxAge (SessionOptions session))%Z ->
  Save s r w session world = Ret (w', session', None) world' ->
  exists encoded c,
    EncodeMultiValues (Codecs s) (Name session) (Values session) = Done encoded
    /\ (maxLength s = 0 \/ Z.of_nat (String.length encoded) <= maxLength s)%Z
    /\ EncodeMultiID (Codecs s) (Name session) (ID session') = Done c
    /\ w' = w ++ [NewCookie (Name session) c (SessionOptions session)]
    /\ keys (backend s world') !! (keyPrefix s +:+ ID session')
       = Some (encoded, ttl s session)
    /\ unavailable (backend s world') = None.
Proof.
  exact (cache_Save_nil_inv s r w w' session session' world world').
Qed.

Lemma cache_Save_nil_stores_record_witness :
  exists encoded c,
    EncodeMultiValues Sample.codecs "sid" Sample.counted = Done encoded
    /\ (4096 = 0 \/ Z.of_nat (String.length encoded) <= 4096)%Z
    /\ EncodeMultiID Sample.codecs "sid" "IDONE" = Done c
    /\ [NewCookie "sid" "sid|IDONE" Fixture.half_hour]
       = [] ++ [NewCookie "sid" c Fixture.half_hour]
    /\ keys (called (SET "session_IDONE" "sid|count=1" 1800000000000)
                    (with_keys (<["session_IDONE" := ("sid|count=1", 1800000000000%Z)]> ∅)
                               Fixture.idle))
         !! "session_IDONE"
       = Some (encoded, 1800000000000%Z)
    /\ unavailable (called (SET "session_IDONE" "sid|count=1" 1800000000000)
                           (with_keys (<["session_IDONE"
                                         := ("sid|count=1", 1800000000000%Z)]> ∅)
                                      Fixture.idle)) = None.
Proof.
  exact (cache_Save_nil_stores_record Sample.store Fixture.request_none []
           [NewCookie "sid" "sid|IDONE" Fixture.half_hour]
           Sample.fresh_counted Sample.saved_counted Fixture.world0
           (mkWorld (called (SET "session_IDONE" "sid|count=1" 1800000000000)
                            (with_keys (<["session_IDONE"
                                          := ("sid|count=1", 1800000000000%Z)]> ∅)
                                       Fixture.idle))
                    Fixture.idle ["IDTWO"])
           eq_refl ltac:(cbn; lia) eq_refl).
Defined.

(** X5.  Round trip.  After a [Save] that returned nil, [New] on a request
    that carries the cookie [Save] set returns, with a nil error, a session
    that is not new and has the saved id and values, provided the codecs
    decode what they encoded and the encoded values are not the empty
    string. *)
Theorem cache_Save_then_New (s : RediStore) (r r' : Request)
        (w w' : ResponseWriter) (session session' : Session) (world world' : World)
        (encoded c : string) :
  connected s = true ->
  (0 <= MaxAge (SessionOptions session))%Z ->
  Save s r w session world = Ret (w', session', None) world' ->
  EncodeMultiValues (Codecs s) (Name session) (Values session) = Done encoded ->
  encoded <> "" ->
  DecodeMultiValues (Codecs s) (Name session) encoded = Done (Values session) ->
  EncodeMultiID (Codecs s) (Name session) (ID session') = Done c ->
  DecodeMultiID (Codecs s) (Name session) c = Done (ID session') ->
  RequestCookie r' (Name session) = Done c ->
  exists world'',
    New s r' (Name session) world'
    = Ret (mkSession (ID session') (Values session) (Options s) false (Name session), None)
          world''.
Proof.
  intros Hs Hage Hsave Henc Hne Hdec Hc Hid Hcookie.
  destruct (cache_Save_nil_inv s r w w' session session' world world'
              Hs Hage Hsave) as (encoded' & c' & Henc' & _ & _ & _ & Hkey & Hup).
  rewrite Henc in Henc'. inversion Henc'; subst encoded'.
  eexists. unfold New. rewrite Hcookie, Hid.
  unfold bind, load. unfold bind. rewrite (RedistoreFacts.dispatch s _ world' Hs).
  unfold cmdGet. cbn [ID with_ID]. rewrite Hup, Hkey. cbn [fst snd].
  apply String.eqb_neq in Hne. rewrite Hne.
  cbn [Name with_ID with_IsNew with_Options NewSession]. rewrite Hdec.
  unfold ret. cbn. rewrite (right_id_L ∅ (∪)). reflexivity.
Qed.

Lemma cache_Save_then_New_witness :
  exists world'',
    New Sample.store Sample.request_IDONE "sid"
        (mkWorld (called (SET "session_IDONE" "sid|count=1" 1800000000000)
                         (with_keys (<["session_IDONE"
                                       := ("sid|count=1", 1800000000000%Z)]> ∅)
                                    Fixture.idle))
                 Fixture.idle ["IDTWO"])
    = Ret (mkSession "IDONE" Sample.counted (Options Sample.store) false "sid", None)
          world''.
Proof.
  exact (cache_Save_then_New Sample.store Fixture.request_none Sample.request_IDONE []
           [NewCookie "sid" "sid|IDONE" Fixture.half_hour]
           Sample.fresh_counted Sample.saved_counted Fixture.world0
           (mkWorld (called (SET "session_IDONE" "sid|count=1" 1800000000000)
                            (with_keys (<["session_IDONE"
                                          := ("sid|count=1", 1800000000000%Z)]> ∅)
                                       Fixture.idle))
                    Fixture.idle ["IDTWO"])
           "sid|count=1" "sid|IDONE"
           eq_refl ltac:(cbn; lia) eq_refl eq_refl ltac:(discriminate)
           eq_refl eq_refl eq_refl eq_refl).
Defined.

(** *** [New] *)

(** X6.  [New] on a store whose client is set never panics and only reads:
    the records of both deployments and the entropy are as before, and the
    backend sees no call or one GET.  The session returned carries the
    requested name and a copy of the store's options. *)
Theorem cache_New_only_reads (s : RediStore) (r : Request) (name : string)
        (world : World) :
  connected s = true ->
  exists session e world',
    New s r name world = Ret (session, e) world'
    /\ keys (node world') = keys (node world)
    /\ keys (cluster world') = keys (cluster world)
    /\ entropy world' = entropy world
    /\ (calls (backend s world') = calls (backend s world)
        \/ exists k, calls (backend s world') = calls (backend s world) ++ [GET k])
    /\ Name session = name
    /\ SessionOptions session = Options s.
Proof.
  intros Hs. unfold New.
  destruct (RequestCookie r name) as [c | e0].
  2: { eexists _, _, world. split; [reflexivity |]. repeat split. left. reflexivity. }
  destruct (DecodeMultiID (Codecs s) name c) as [id | e0].
  2: { eexists _, _, world. split; [reflexivity |]. repeat split. left. reflexivity. }
  unfold bind, load. unfold bind. rewrite (RedistoreFacts.dispatch s _ world Hs).
  cbn [ID with_ID].
  assert (Hw : forall sv, keys sv = keys (backend s world) ->
                          keys (node (put_backend s sv world)) = keys (node world)
                          /\ keys (cluster (put_backend s sv world)) = keys (cluster world)
                          /\ entropy (put_backend s sv world) = entropy world).
  { intros sv Hsv. unfold put_backend, backend in *.
    destruct (IsCluster s); cbn; repeat split; assumption. }
  assert (Hcalls : calls (snd (cmdGet (keyPrefix s +:+ id) (backend s world)))
                   = calls (backend s world) ++ [GET (keyPrefix s +:+ id)]).
  { unfold cmdGet. destruct (unavailable (backend s world)); [reflexivity |].
    destruct (keys (backend s world) !! (keyPrefix s +:+ id)) as [[v t] |]; reflexivity. }
  destruct (cmdGet_frame (keyPrefix s +:+ id) (backend s world)) as [Hkeys _].
  destruct (cmdGet (keyPrefix s +:+ id) (backend s world)) as [[data err] sv].
  cbn [fst snd] in *. destruct (Hw sv Hkeys) as (Hn & Hc & He).
  destruct (String.eqb data "").
  - eexists _, _, _. split; [reflexivity |].
    rewrite RedistoreFacts.backend_put_backend. repeat split; try assumption.
    right. exists (keyPrefix s +:+ id). exact Hcalls.
  - cbn [Name with_ID with_IsNew with_Options NewSession].
    destruct (DecodeMultiValues (Codecs s) name data) as [v | e1];
      eexists _, _, _; (split; [reflexivity |]);
      rewrite RedistoreFacts.backend_put_backend; repeat split; try assumption;
      right; exists (keyPrefix s +:+ id); exact Hcalls.
Qed.

Lemma cache_New_only_reads_witness :
  exists session e world',
    New Sample.store Sample.request_IDONE "sid" Fixture.world_saved
    = Ret (session, e) world'
    /\ keys (node world') = keys (node Fixture.world_saved)
    /\ keys (cluster world') = keys (cluster Fixture.world_saved)
    /\ entropy world' = entropy Fixture.world_saved
    /\ (calls (node world') = calls (node Fixture.world_saved)
        \/ exists k, calls (node world') = calls (node Fixture.world_saved) ++ [GET k])
    /\ Name session = "sid"
    /\ SessionOptions session = Options Sample.store.
Proof.
  exact (cache_New_only_reads Sample.store Sample.request_IDONE "sid"
           Fixture.world_saved eq_refl).
Defined.

(** A request without a cookie of the name has none to look up. *)
Lemma RequestCookie_absent r name :
  ~ In name (map fst (Cookies r)) -> RequestCookie r name = Fail ErrNoCookie.
Proof.
  unfold RequestCookie. induction (Cookies r) as [| [n v] rest IH]; [reflexivity |].
  cbn. intros Hin. destruct (String.eqb n name) eqn:Hn.
  - apply String.eqb_eq in Hn. exfalso. apply Hin. left. exact Hn.
  - apply IH. intros H. apply Hin. right. exact H.
Qed.

(** The cookie [RequestCookie] finds is one of the request's. *)
Lemma RequestCookie_found r name c :
  RequestCookie r name = Done c -> In (name, c) (Cookies r).
Proof.
  unfold RequestCookie. induction (Cookies r) as [| [n v] rest IH]; [discriminate |].
  cbn. destruct (String.eqb n name) eqn:Hn.
  - apply String.eqb_eq in Hn. intros H. inversion H; subst. left. reflexivity.
  - intros H. right. apply IH. exact H.
Qed.

(** X7.  On a request that carries no cookie of the session's name, [New]
    of either store returns a new, empty session with the store's options
    and a nil error, whatever the state of the store's client pointers, and
    makes no call on the backend. *)
Theorem New_without_cookie (s : RediStore) (m : Mongostore.MongoStore) (r : Request)
        (name : string) (cache : World) (db : Mongostore.World) :
  ~ In name (map fst (Cookies r)) ->
  New s r name cache = Ret (mkSession "" ∅ (Options s) true name, None) cache
  /\ Mongostore.New m r name db
     = Ret (mkSession "" ∅ (Mongostore.Options m) true name, None) db.
Proof.
  intros Hin. pose proof (RequestCookie_absent r name Hin) as Hc.
  split.
  - unfold New. rewrite Hc. reflexivity.
  - unfold Mongostore.New. rewrite Hc. cbn.
    destruct (Mongostore.Options m). reflexivity.
Qed.

Lemma New_without_cookie_witness :
  New Fixture.cluster0 Sample.request_other "sid" Fixture.world_down
  = Ret (mkSession "" ∅ (Options Fixture.cluster0) true "sid", None) Fixture.world_down
  /\ Mongostore.New Sample.mongo Sample.request_other "sid" Fixture.db_saved
     = Ret (mkSession "" ∅ (Mongostore.Options Sample.mongo) true "sid", None)
           Fixture.db_saved.
Proof.
  apply (New_without_cookie Fixture.cluster0 Sample.mongo Sample.request_other "sid"
           Fixture.world_down Fixture.db_saved).
  cbn. intros [H | [H | []]]; discriminate H.
Defined.

(** *** The constructor *)

(** X8.  With an address count its mode accepts, the constructor never
    panics: it makes exactly one call, a PING, on the deployment of its
    mode, and returns a store with that mode's client set and the defaults
    ([maxLength] 4096, prefix [session_], [DefaultMaxAge] 1800, path [/],
    [MaxAge] 30 days) together with the error of the PING: a store is
    returned also when the backend cannot be reached. *)
Theorem NewRediStore_returns_store
        (CodecsFromPairs : list string -> gorilla.Codecs) (isCluster : bool) (size : Z)
        (address : list string) (password : string) (keyPairs : list string)
        (world : World) :
  (if isCluster then (6 <= length address)%nat else length address = 1%nat) ->
  exists s,
    NewRediStore CodecsFromPairs isCluster size address password keyPairs world
    = Ret (s, unavailable (backend s world))
          (put_backend s (called PING (backend s world)) world)
    /\ IsCluster s = isCluster
    /\ connected s = true
    /\ Codecs s = CodecsFromPairs keyPairs
    /\ Options s = mkOptions "/" "" 2592000 false false
    /\ DefaultMaxAge s = 1800%Z
    /\ maxLength s = 4096%Z
    /\ keyPrefix s = "session_".
Proof.
  intros Hlen. unfold NewRediStore, bind. destruct isCluster.
  - replace (length address <? 6)%nat with false
      by (symmetry; apply Nat.ltb_ge; exact Hlen).
    unfold ret at 1.
    exists (mkRediStore None (Some (mkClusterOptions address size 10 password))
                        (CodecsFromPairs keyPairs)
                        (mkOptions "/" "" sessionExpire false false)
                        (60 * 30) 4096 "session_" true).
    split; [| repeat split].
    cbv beta iota delta [ret bind ping onClusterClient cmdPing backend put_backend
                         IsCluster ClusterClient].
    destruct (unavailable (cluster world)); reflexivity.
  - destruct address as [| a [| b rest]]; try discriminate Hlen.
    cbn [length Nat.ltb Nat.leb index0]. unfold ret at 1.
    exists (mkRediStore (Some (mkClientOptions a size 10 password)) None
                        (CodecsFromPairs keyPairs)
                        (mkOptions "/" "" sessionExpire false false)
                        (60 * 30) 4096 "session_" false).
    split; [| repeat split].
    cbv beta iota delta [ret bind ping onClient cmdPing backend put_backend
                         IsCluster Client index0].
    destruct (unavailable (node world)); reflexivity.
Qed.

Lemma NewRediStore_returns_store_witness :
  exists s,
    NewRediStore Fixture.CodecsFromPairs false 10 ["127.0.0.1:6379"] "" []
                 Fixture.world_down
    = Ret (s, unavailable (backend s Fixture.world_down))
          (put_backend s (called PING (backend s Fixture.world_down)) Fixture.world_down)
    /\ IsCluster s = false
    /\ connected s = true
    /\ Codecs s = Fixture.CodecsFromPairs []
    /\ Options s = mkOptions "/" "" 2592000 false false
    /\ DefaultMaxAge s = 1800%Z
    /\ maxLength s = 4096%Z
    /\ keyPrefix s = "session_".
Proof.
  exact (NewRediStore_returns_store Fixture.CodecsFromPairs false 10 ["127.0.0.1:6379"]
           "" [] Fixture.world_down eq_refl).
Defined.

(** *** [SetMaxLength] *)

(** X9.  [SetMaxLength] with a negative argument leaves the store as it
    is.  With a positive argument below the length of the encoded values,
    [save] returns the too-big error and does nothing else; with 0, or with
    an argument the encoded values fit in, [save] does what it does without
    a limit. *)
Theorem SetMaxLength_limits_save (s : RediStore) (l : Z) (session : Session)
        (w : World) (encoded : string) :
  EncodeMultiValues (Codecs s) (Name session) (Values session) = Done encoded ->
  ((l < 0)%Z -> SetMaxLength s l = s)
  /\ ((0 < l < Z.of_nat (String.length encoded))%Z ->
      save (SetMaxLength s l) session w = Ret (Some ErrTooBig) w)
  /\ ((l = 0 \/ Z.of_nat (String.length encoded) <= l)%Z -> (0 <= l)%Z ->
      save (SetMaxLength s l) session w = save (SetMaxLength s 0) session w).
Proof.
  intros Henc. split; [| split].
  - intros Hl. unfold SetMaxLength.
    replace (0 <=? l)%Z with false by (symmetry; apply Z.leb_gt; exact Hl).
    reflexivity.
  - intros [Hpos Hlen].
    apply (RedistoreFacts.save_too_big (SetMaxLength s l) session w encoded).
    + unfold SetMaxLength. destruct (0 <=? l)%Z; exact Henc.
    + unfold SetMaxLength.
      replace (0 <=? l)%Z with true by (symmetry; apply Z.leb_le; lia).
      exact Hpos.
    + unfold SetMaxLength.
      replace (0 <=? l)%Z with true by (symmetry; apply Z.leb_le; lia).
      exact Hlen.
  - intros Hfit Hl. unfold SetMaxLength.
    replace (0 <=? l)%Z with true by (symmetry; apply Z.leb_le; exact Hl).
    change (0 <=? 0)%Z with true. cbv iota. unfold save. cbn [Codecs maxLength IsCluster ClusterClient Client
                                   keyPrefix DefaultMaxAge].
    rewrite Henc. cbn [Z.eqb negb andb].
    replace (negb (l =? 0)%Z && (l <? Z.of_nat (String.length encoded))%Z) with false.
    + reflexivity.
    + symmetry. destruct Hfit as [-> | Hle]; [reflexivity |].
      apply andb_false_iff. right. apply Z.ltb_ge. exact Hle.
Qed.

Lemma SetMaxLength_limits_save_witness :
  save (SetMaxLength Fixture.store0 4) Fixture.session_abc Fixture.world_saved
  = Ret (Some ErrTooBig) Fixture.world_saved.
Proof.
  apply (proj1 (proj2 (SetMaxLength_limits_save Fixture.store0 4 Fixture.session_abc
                         Fixture.world_saved "sid|xxxxxxxx" eq_refl))).
  cbn. lia.
Defined.

End RedistoreMore.

(** ** Further facts about package mongostore *)
Module MongostoreMore.
Import gorilla Mongostore.

(** The fields of the world that no operation of the store changes. *)
Lemma with_docs_fields d w :
  failure (with_docs d w) = failure w
  /\ indexes (with_docs d w) = indexes w
  /\ live (with_docs d w) = live w
  /\ clock (with_docs d w) = clock w.
Proof. repeat split. Qed.

(** Everything [upsert] does. *)
Lemma upsert_outcome m session w :
  exists e w',
    upsert m session w = Ret e w'
    /\ (forall k, DecodeString (ID session) <> Some k -> docs w' !! k = docs w !! k)
    /\ failure w' = failure w
    /\ indexes w' = indexes w
    /\ live w' = live w
    /\ clock w' = clock w
    /\ (IsObjectIdHex (ID session) = false -> e = Some ErrInvalidId /\ w' = w).
Proof.
  destruct (IsObjectIdHex (ID session)) eqn:Hok.
  2: { exists (Some ErrInvalidId), w. unfold upsert. rewrite Hok.
       repeat split; reflexivity. }
  destruct (MongostoreFacts.IsObjectIdHex_bytes _ Hok) as (id & Hid & _ & _).
  assert (Hwrite : forall t,
             exists e w',
               match EncodeMultiValues (Codecs m) (Name session) (Values session) with
               | Fail e => Ret (Some e) w
               | Done encoded =>
                   match failure w with
                   | Some e => Ret (Some e) w
                   | None =>
                       Ret None (with_docs (<[id := mkSessionItem id encoded t]> (docs w)) w)
                   end
               end = Ret e w'
               /\ (forall k, DecodeString (ID session) <> Some k ->
                             docs w' !! k = docs w !! k)
               /\ failure w' = failure w
               /\ indexes w' = indexes w
               /\ live w' = live w
               /\ clock w' = clock w
               /\ (true = false -> e = Some ErrInvalidId /\ w' = w)).
  { intros t.
    destruct (EncodeMultiValues (Codecs m) (Name session) (Values session)) as [enc | e0].
    - destruct (failure w) as [e |] eqn:Hf.
      + exists (Some e), w. repeat split; try reflexivity; try discriminate; assumption.
      + eexists None, _. split; [reflexivity |].
        repeat split; try discriminate; try exact Hf.
        intros k Hk. cbn. apply lookup_insert_ne. congruence.
    - exists (Some e0), w. repeat split; try reflexivity; discriminate. }
  destruct (Values session !! VString "modified") as [v |] eqn:Hmod.
  - destruct v as [x | x | x | t];
      try (exists (Some ErrInvalidModified), w;
           rewrite (MongostoreFacts.upsert_mistyped m session _ w Hok Hmod)
             by (intros t0; discriminate);
           repeat split; discriminate).
    rewrite (MongostoreFacts.upsert_timestamp m session id t w Hok Hid Hmod).
    apply Hwrite.
  - rewrite (MongostoreFacts.upsert_absent m session id w Hok Hid Hmod).
    apply Hwrite.
Qed.

(** Everything [delete] does. *)
Lemma delete_outcome m session w :
  exists e w',
    delete m session w = Ret e w'
    /\ (forall k, DecodeString (ID session) <> Some k -> docs w' !! k = docs w !! k)
    /\ failure w' = failure w
    /\ indexes w' = indexes w
    /\ live w' = live w
    /\ clock w' = clock w
    /\ (IsObjectIdHex (ID session) = false -> e = Some ErrInvalidId /\ w' = w).
Proof.
  destruct (IsObjectIdHex (ID session)) eqn:Hok.
  2: { exists (Some ErrInvalidId), w. unfold delete. rewrite Hok.
       repeat split; reflexivity. }
  destruct (MongostoreFacts.IsObjectIdHex_bytes _ Hok) as (id & Hid & _ & _).
  rewrite (MongostoreFacts.document_delete_result m session id w Hok Hid).
  destruct (failure w) as [e |] eqn:Hf.
  - exists (Some e), w. repeat split; try reflexivity; try discriminate; assumption.
  - destruct (docs w !! id) eqn:Hdoc.
    + eexists None, _. split; [reflexivity |].
      repeat split; try discriminate; try exact Hf.
      intros k Hk. cbn. apply lookup_delete_ne. congruence.
    + exists (Some ErrNotFound), w.
      repeat split; try reflexivity; try discriminate; assumption.
Qed.

(** Everything [load] does: it never changes the world. *)
Lemma load_outcome m session w :
  exists session' e,
    load m session w = Ret (session', e) w
    /\ Name session' = Name session
    /\ SessionOptions session' = SessionOptions session
    /\ IsNew session' = IsNew session
    /\ ID session' = ID session
    /\ (e <> None -> session' = session)
    /\ (IsObjectIdHex (ID session) = false -> e = Some ErrInvalidId).
Proof.
  unfold load. destruct (IsObjectIdHex (ID session)) eqn:Hok; cbn [negb].
  2: { exists session, (Some ErrInvalidId). repeat split. }
  destruct (MongostoreFacts.IsObjectIdHex_bytes _ Hok) as (id & Hid & _ & Hhex).
  unfold withClone, bind. rewrite Hhex. unfold FindId, ret. cbn [failure with_live docs].
  destruct (failure w) as [e |].
  { exists session, (Some e). rewrite MongostoreFacts.clone_restored.
    repeat split. discriminate. }
  destruct (docs w !! id) as [item |].
  2: { exists session, (Some ErrNotFound). rewrite MongostoreFacts.clone_restored.
       repeat split. discriminate. }
  destruct (DecodeMultiValues (Codecs m) (Name session) (Data item)) as [v | e].
  - eexists _, None. unfold ret. rewrite MongostoreFacts.clone_restored.
    split; [reflexivity |]. repeat split; try discriminate.
    intros H. exfalso. apply H. reflexivity.
  - exists session, (Some e). unfold ret. rewrite MongostoreFacts.clone_restored.
    repeat split. discriminate.
Qed.

(** The first step of [Save] on a session that is not marked for deletion. *)
Lemma document_assign_id session world :
  exists session1 world1,
    (if String.eqb (ID session) "" then
       let* oid := NewObjectId in ret (with_ID (EncodeToString oid) session)
     else ret session) world = Ret session1 world1
    /\ Terms.same_but_ID session session1
    /\ (ID session <> "" -> session1 = session /\ world1 = world)
    /\ (ID session = "" -> IsObjectIdHex (ID session1) = true)
    /\ docs world1 = docs world
    /\ failure world1 = failure world
    /\ indexes world1 = indexes world
    /\ live world1 = live world
    /\ clock world1 = clock world.
Proof.
  destruct (String.eqb (ID session) "") eqn:Hid.
  - apply String.eqb_eq in Hid. unfold bind, NewObjectId, ret.
    eexists _, _. split; [reflexivity |].
    repeat split; try contradiction.
    intros _. cbn [ID with_ID]. unfold IsObjectIdHex.
    rewrite MongostoreFacts.length_EncodeToString,
            MongostoreFacts.DecodeString_EncodeToString.
    rewrite !MongostoreFacts.length_append, !MongostoreFacts.length_bigEndian.
    reflexivity.
  - apply String.eqb_neq in Hid. exists session, world.
    repeat split. contradiction.
Qed.

(** Everything [Save] does. *)
Lemma document_Save_outcome m r w session world :
  exists w' session' e world',
    Save m r w session world = Ret (w', session', e) world'
    /\ Terms.same_but_ID session session'
    /\ (ID session <> "" \/ (MaxAge (SessionOptions session) < 0)%Z -> session' = session)
    /\ Terms.cookie_iff_nil w w' session e
    /\ (forall k, DecodeString (ID session') <> Some k -> docs world' !! k = docs world !! k)
    /\ failure world' = failure world
    /\ indexes world' = indexes world
    /\ live world' = live world
    /\ clock world' = clock world
    /\ (ID session <> "" -> IsObjectIdHex (ID session) = false ->
        w' = w /\ e = Some ErrInvalidId /\ world' = world).
Proof.
  unfold Save. destruct (MaxAge (SessionOptions session) <? 0)%Z eqn:Hage.
  - unfold bind.
    destruct (delete_outcome m session world)
      as (e & w1 & Hdel & Hk & Hf & Hi & Hl & Hc & Hbad).
    rewrite Hdel. destruct e as [e |].
    + exists w, session, (Some e), w1. split; [reflexivity |].
      assert (Hlast : ID session <> "" -> IsObjectIdHex (ID session) = false ->
                      w = w /\ Some e = Some ErrInvalidId /\ w1 = world).
      { intros _ Hno. destruct (Hbad Hno) as [He Hw]. repeat split; assumption. }
      repeat split; try assumption; apply Hlast; assumption.
    + eexists _, session, None, w1. split; [reflexivity |].
      assert (Hlast : ID session <> "" -> IsObjectIdHex (ID session) = false -> False).
      { intros _ Hno. destruct (Hbad Hno) as [He _]. discriminate He. }
      repeat split; try assumption; try (exfalso; apply Hlast; assumption).
      exists "". reflexivity.
  - destruct (document_assign_id session world)
      as (session1 & world1 & Hgen & Hsame & Hkeep & _ & Hd1 & Hf1 & Hi1 & Hl1 & Hc1).
    assert (Hkeep' : ID session <> "" \/ (MaxAge (SessionOptions session) < 0)%Z ->
                     session1 = session).
    { intros [H | H]; [exact (proj1 (Hkeep H)) |]. apply Z.ltb_ge in Hage. lia. }
    pose proof Hsame as (Hname & Hvals & Hopts & Hnew).
    unfold bind at 1. rewrite Hgen. unfold bind.
    destruct (upsert_outcome m session1 world1)
      as (e & w2 & Hup & Hk & Hf & Hi & Hl & Hc & Hbad).
    rewrite Hup.
    assert (Hinvalid : ID session <> "" -> IsObjectIdHex (ID session) = false ->
                       e = Some ErrInvalidId /\ w2 = world).
    { intros Hne Hno. destruct (Hkeep Hne) as [-> ->]. exact (Hbad Hno). }
    assert (Hframe : forall k, DecodeString (ID session1) <> Some k ->
                               docs w2 !! k = docs world !! k).
    { intros k Hkk. rewrite (Hk k Hkk), Hd1. reflexivity. }
    destruct e as [e |].
    + exists w, session1, (Some e), w2. split; [reflexivity |].
      repeat split; try congruence; try assumption; apply Hinvalid; assumption.
    + assert (Hlast : ID session <> "" -> IsObjectIdHex (ID session) = false -> False).
      { intros Hne Hno. destruct (Hinvalid Hne Hno) as [He _]. discriminate He. }
      destruct (EncodeMultiID (Codecs m) (Name session1) (ID session1)) as [c | e1].
      * eexists _, session1, None, w2. split; [reflexivity |].
        repeat split; try congruence; try assumption;
          try (exfalso; apply Hlast; assumption).
        exists c. rewrite Hname, Hopts. reflexivity.
      * exists w, session1, (Some e1), w2. split; [reflexivity |].
        repeat split; try congruence; try assumption;
          exfalso; apply Hlast; assumption.
Qed.

(** X10.  [Save] never panics and changes no document but the one whose
    identifier the returned session's id spells; indexes, clock and the
    reachability of the database are as before. *)
Theorem document_Save_leaves_other_documents (m : MongoStore) (r : Request)
        (w : ResponseWriter) (session : Session) (world : World) :
  exists w' session' e world',
    Save m r w session world = Ret (w', session', e) world'
    /\ (forall k, DecodeString (ID session') <> Some k ->
                  docs world' !! k = docs world !! k)
    /\ indexes world' = indexes world
    /\ failure world' = failure world
    /\ clock world' = clock world.
Proof.
  destruct (document_Save_outcome m r w session world)
    as (w' & session' & e & world' & H & _ & _ & _ & Hk & Hf & Hi & _ & Hc & _).
  exists w', session', e, world'. repeat split; assumption.
Qed.

(** X11.  [Save] adds exactly one cookie to the response when it returns
    nil, named after the session and carrying its options, and none when it
    returns an error.  The session it returns has the name, values, options
    and [IsNew] it was given, and the id it was given unless that was
    empty. *)
Theorem document_Save_response_and_session (m : MongoStore) (r : Request)
        (w : ResponseWriter) (session : Session) (world : World) :
  exists w' session' e world',
    Save m r w session world = Ret (w', session', e) world'
    /\ match e with
       | None => exists v, w' = w ++ [NewCookie (Name session) v (SessionOptions session)]
       | Some _ => w' = w
       end
    /\ Name session' = Name session
    /\ Values session' = Values session
    /\ SessionOptions session' = SessionOptions session
    /\ IsNew session' = IsNew session
    /\ (ID session <> "" -> session' = session).
Proof.
  destruct (document_Save_outcome m r w session world)
    as (w' & session' & e & world' & H & (Hn & Hv & Ho & Hi) & Hk & Hc & _).
  exists w', session', e, world'. repeat split; try assumption.
  intros Hid. apply Hk. left. exact Hid.
Qed.

(** X12.  A session id that is neither empty nor a well-formed document
    identifier is rejected before the database is reached: [Save], whatever
    the [MaxAge], returns the invalid-id error, sets no cookie and leaves
    session and world as they are; [New] on a cookie that decodes to such an
    id returns a new, empty session that carries the id, with a nil error. *)
Theorem document_malformed_id_rejected (m : MongoStore) (r : Request)
        (w : ResponseWriter) (session : Session) (world : World) :
  ID session <> "" ->
  IsObjectIdHex (ID session) = false ->
  Save m r w session world = Ret (w, session, Some ErrInvalidId) world
  /\ (forall r' name c,
        RequestCookie r' name = Done c ->
        DecodeMultiID (Codecs m) name c = Done (ID session) ->
        New m r' name world
        = Ret (mkSession (ID session) ∅ (Options m) true name, None) world).
Proof.
  intros Hne Hno. split.
  - destruct (document_Save_outcome m r w session world)
      as (w' & session' & e & world' & H & _ & Hk & _ & _ & _ & _ & _ & _ & Hbad).
    destruct (Hbad Hne Hno) as (-> & -> & ->).
    rewrite (Hk (or_introl Hne)) in H. exact H.
  - intros r' name c Hc Hid. unfold New. rewrite Hc, Hid.
    unfold bind, load. cbn [ID with_ID]. rewrite Hno. cbn.
    destruct (Options m). reflexivity.
Qed.

Lemma document_malformed_id_rejected_witness :
  Save Sample.mongo Fixture.request_none [] Sample.saved_counted Fixture.db_saved
  = Ret ([], Sample.saved_counted, Some ErrInvalidId) Fixture.db_saved
  /\ New Sample.mongo Sample.request_IDONE "sid" Fixture.db_saved
     = Ret (mkSession "IDONE" ∅ Fixture.half_hour true "sid", None) Fixture.db_saved.
Proof.
  destruct (document_malformed_id_rejected Sample.mongo Fixture.request_none []
              Sample.saved_counted Fixture.db_saved ltac:(discriminate) eq_refl)
    as [Hsave Hnew].
  split; [exact Hsave |].
  exact (Hnew Sample.request_IDONE "sid" "sid|IDONE" eq_refl eq_refl).
Defined.

(** Everything [New] does. *)
Lemma document_New_outcome (m : MongoStore) (r : Request) (name : string)
        (world : World) :
  exists session,
    New m r name world = Ret (session, None) world
    /\ Name session = name
    /\ SessionOptions session = Options m
    /\ (IsNew session = false ->
        exists c, RequestCookie r name = Done c
                  /\ DecodeMultiID (Codecs m) name c = Done (ID session)
                  /\ IsObjectIdHex (ID session) = true).
Proof.
  unfold New.
  assert (Hopts : mkOptions (Path (Options m)) (Domain (Options m)) (MaxAge (Options m))
                            (Secure (Options m)) (HttpOnly (Options m)) = Options m)
    by (destruct (Options m); reflexivity).
  rewrite Hopts.
  destruct (RequestCookie r name) as [c | e0].
  2: { eexists. split; [reflexivity |]. repeat split. discriminate. }
  destruct (DecodeMultiID (Codecs m) name c) as [id | e0] eqn:Hid.
  2: { eexists. split; [reflexivity |]. repeat split. discriminate. }
  unfold bind.
  destruct (load_outcome m (with_ID id (with_IsNew true
                                          (with_Options (Options m) (NewSession name))))
                         world)
    as (session' & e & Hload & Hn & Ho & Hi & Hd & Hkeep & Hbad).
  rewrite Hload. cbn in Hn, Ho, Hi, Hd, Hbad.
  destruct e as [e |]; cbn [notNil negb].
  - exists session'. split; [reflexivity |].
    split; [exact Hn |]. split; [exact Ho |].
    rewrite Hi. discriminate.
  - exists (with_IsNew false session'). split; [reflexivity |].
    split; [exact Hn |]. split; [exact Ho |].
    intros _. exists c. cbn [ID with_IsNew]. rewrite Hd.
    split; [reflexivity |]. split; [exact Hid |].
    destruct (IsObjectIdHex id) eqn:Hok; [reflexivity |].
    discriminate (Hbad eq_refl).
Qed.

(** X13.  [New] never panics, never returns an error and leaves the world
    exactly as it was; the session it returns carries the requested name and
    the store's options, and is marked not new only when the request carried
    a cookie that decoded to its id. *)
Theorem document_New_never_fails (m : MongoStore) (r : Request) (name : string)
        (world : World) :
  exists session,
    New m r name world = Ret (session, None) world
    /\ Name session = name
    /\ SessionOptions session = Options m
    /\ (IsNew session = false ->
        exists c, RequestCookie r name = Done c
                  /\ DecodeMultiID (Codecs m) name c = Done (ID session)
                  /\ IsObjectIdHex (ID session) = true).
Proof.
  exact (document_New_outcome m r name world).
Qed.

(** X14.  Every operation that clones the shared mgo session closes its
    clone: [load], [upsert], [delete], [New] and [Save] end with as many
    live clones as they started with, whatever they return. *)
Theorem clones_are_released (m : MongoStore) (r : Request) (w : ResponseWriter)
        (session : Session) (name : string) (world : World) :
  live (final (load m session world)) = live world
  /\ live (final (upsert m session world)) = live world
  /\ live (final (delete m session world)) = live world
  /\ live (final (New m r name world)) = live world
  /\ live (final (Save m r w session world)) = live world.
Proof.
  destruct (load_outcome m session world) as (s1 & e1 & H1 & _).
  destruct (upsert_outcome m session world) as (e2 & w2 & H2 & _ & _ & _ & Hl2 & _).
  destruct (delete_outcome m session world) as (e3 & w3 & H3 & _ & _ & _ & Hl3 & _).
  destruct (document_New_outcome m r name world) as (s4 & H4 & _).
  destruct (document_Save_outcome m r w session world)
    as (w5 & s5 & e5 & world5 & H5 & _ & _ & _ & _ & _ & _ & Hl5 & _).
  rewrite H1, H2, H3, H4, H5. cbn [final]. repeat split; assumption.
Qed.

(** What a nil result of [Save] on a session that is not marked for deletion
    tells. *)
Lemma document_Save_nil_inv (m : MongoStore) (r : Request)
        (w w' : ResponseWriter) (session session' : Session) (world world' : World) :
  (0 <= MaxAge (SessionOptions session))%Z ->
  Save m r w session world = Ret (w', session', None) world' ->
  exists encoded c id,
    EncodeMultiValues (Codecs m) (Name session) (Values session) = Done encoded
    /\ EncodeMultiID (Codecs m) (Name session) (ID session') = Done c
    /\ w' = w ++ [NewCookie (Name session) c (SessionOptions session)]
    /\ IsObjectIdHex (ID session') = true
    /\ DecodeString (ID session') = Some id
    /\ docs world' !! id
       = Some (mkSessionItem id encoded
                 match Values session !! VString "modified" with
                 | Some (VTime t) => t
                 | _ => clock world
                 end)
    /\ failure world' = None.
Proof.
  intros Hage Hsave. apply Z.ltb_ge in Hage.
  destruct (document_assign_id session world)
    as (session1 & world1 & Hgen & (Hname & Hvals & Hopts & Hnew) & _ & _
        & Hd1 & Hf1 & _ & _ & Hc1).
  unfold Save in Hsave. rewrite Hage in Hsave.
  unfold bind at 1 in Hsave. rewrite Hgen in Hsave. unfold bind in Hsave.
  destruct (IsObjectIdHex (ID session1)) eqn:Hok.
  2: { unfold upsert in Hsave. rewrite Hok in Hsave. discriminate Hsave. }
  destruct (MongostoreFacts.IsObjectIdHex_bytes _ Hok) as (id & Hid & _ & _).
  assert (Hwritten : forall t,
             upsert m session1 world1
             = match EncodeMultiValues (Codecs m) (Name session1) (Values session1) with
               | Fail e => Ret (Some e) world1
               | Done encoded =>
                   match failure world1 with
                   | Some e => Ret (Some e) world1
                   | None => Ret None (with_docs (<[id := mkSessionItem id encoded t]>
                                                    (docs world1)) world1)
                   end
               end ->
             exists encoded c id0,
               EncodeMultiValues (Codecs m) (Name session) (Values session) = Done encoded
               /\ EncodeMultiID (Codecs m) (Name session) (ID session') = Done c
               /\ w' = w ++ [NewCookie (Name session) c (SessionOptions session)]
               /\ IsObjectIdHex (ID session') = true
               /\ DecodeString (ID session') = Some id0
               /\ docs world' !! id0 = Some (mkSessionItem id0 encoded t)
               /\ failure world' = None).
  { intros t Hups. rewrite Hups in Hsave. rewrite Hname, Hvals in Hsave.
    destruct (EncodeMultiValues (Codecs m) (Name session) (Values session))
      as [encoded | e0] eqn:Henc; [| discriminate Hsave].
    destruct (failure world1) as [e |] eqn:Hf; [discriminate Hsave |].
    destruct (EncodeMultiID (Codecs m) (Name session) (ID session1))
      as [c | e1] eqn:Hc; [| discriminate Hsave].
    rewrite Hopts in Hsave.
    inversion Hsave; subst. exists encoded, c, id.
    repeat split; try assumption. cbn. apply lookup_insert_eq. }
  destruct (Values session !! VString "modified") as [v |] eqn:Hmod.
  - destruct v as [x | x | x | t];
      try (rewrite (MongostoreFacts.upsert_mistyped m session1 _ world1 Hok
                      ltac:(rewrite Hvals; exact Hmod) ltac:(intros t0; discriminate))
            in Hsave; discriminate Hsave).
    apply Hwritten.
    apply (MongostoreFacts.upsert_timestamp m session1 id t world1 Hok Hid).
    rewrite Hvals. exact Hmod.
  - rewrite <- Hc1. apply Hwritten.
    apply (MongostoreFacts.upsert_absent m session1 id world1 Hok Hid).
    rewrite Hvals. exact Hmod.
Qed.

(** X15.  When [Save] on a session that is not marked for deletion returns
    nil, the session's id is a well-formed identifier, the collection holds
    under it a document with the encoded values and with [modified] taken
    from [Values["modified"]] when that is a timestamp and from the clock
    otherwise, and the one cookie added carries the encoded id. *)
Theorem document_Save_nil_stores_record (m : MongoStore) (r : Request)
        (w w' : ResponseWriter) (session session' : Session) (world world' : World) :
  (0 <= MaxAge (SessionOptions session))%Z ->
  Save m r w session world = Ret (w', session', None) world' ->
  exists encoded c id,
    EncodeMultiValues (Codecs m) (Name session) (Values session) = Done encoded
    /\ EncodeMultiID (Codecs m) (Name session) (ID session') = Done c
    /\ w' = w ++ [NewCookie (Name session) c (SessionOptions session)]
    /\ IsObjectIdHex (ID session') = true
    /\ DecodeString (ID session') = Some id
    /\ docs world' !! id
       = Some (mkSessionItem id encoded
                 match Values session !! VString "modified" with
                 | Some (VTime t) => t
                 | _ => clock world
                 end)
    /\ failure world' = None.
Proof.
  exact (document_Save_nil_inv m r w w' session session' world world').
Qed.

Lemma document_Save_nil_stores_record_witness :
  exists encoded c id,
    EncodeMultiValues Sample.codecs "sid" Sample.counted = Done encoded
    /\ EncodeMultiID Sample.codecs "sid" Fixture.oid = Done c
    /\ [NewCookie "sid" ("sid|" +:+ Fixture.oid) Fixture.half_hour]
       = [] ++ [NewCookie "sid" c Fixture.half_hour]
    /\ IsObjectIdHex Fixture.oid = true
    /\ DecodeString Fixture.oid = Some id
    /\ docs (with_docs (<[Fixture.oid_bytes
                          := mkSessionItem Fixture.oid_bytes "sid|count=1" 1700000000]> ∅)
                       Fixture.db0) !! id
       = Some (mkSessionItem id encoded 1700000000)
    /\ failure (with_docs (<[Fixture.oid_bytes
                             := mkSessionItem Fixture.oid_bytes "sid|count=1" 1700000000]> ∅)
                          Fixture.db0) = None.
Proof.
  exact (document_Save_nil_stores_record Sample.mongo Fixture.request_none []
           [NewCookie "sid" ("sid|" +:+ Fixture.oid) Fixture.half_hour]
           Sample.doc_counted Sample.doc_counted Fixture.db0
           (with_docs (<[Fixture.oid_bytes
                         := mkSessionItem Fixture.oid_bytes "sid|count=1" 1700000000]> ∅)
                      Fixture.db0)
           ltac:(cbn; lia) eq_refl).
Defined.

(** X16.  Round trip.  After a [Save] that returned nil, [New] on a request
    that carries the cookie [Save] set returns a session that is not new and
    has the saved id and values, provided the codecs decode what they
    encoded; the world is left as [Save] left it. *)
Theorem document_Save_then_New (m : MongoStore) (r r' : Request)
        (w w' : ResponseWriter) (session session' : Session) (world world' : World)
        (encoded c : string) :
  (0 <= MaxAge (SessionOptions session))%Z ->
  Save m r w session world = Ret (w', session', None) world' ->
  EncodeMultiValues (Codecs m) (Name session) (Values session) = Done encoded ->
  DecodeMultiValues (Codecs m) (Name session) encoded = Done (Values session) ->
  EncodeMultiID (Codecs m) (Name session) (ID session') = Done c ->
  DecodeMultiID (Codecs m) (Name session) c = Done (ID session') ->
  RequestCookie r' (Name session) = Done c ->
  New m r' (Name session) world'
  = Ret (mkSession (ID session') (Values session) (Options m) false (Name session), None)
        world'.
Proof.
  intros Hage Hsave Henc Hdec Hc Hid Hcookie.
  destruct (document_Save_nil_inv m r w w' session session' world world'
              Hage Hsave)
    as (encoded' & c' & id & Henc' & _ & _ & Hok & Hhex & Hdoc & Hf).
  rewrite Henc in Henc'. inversion Henc'; subst encoded'.
  destruct (MongostoreFacts.IsObjectIdHex_bytes _ Hok) as (d & Hd & _ & Hobj).
  rewrite Hhex in Hd. inversion Hd; subst d.
  unfold New. rewrite Hcookie, Hid.
  unfold bind, load. cbn [ID with_ID]. rewrite Hok. cbn [negb].
  unfold withClone, bind. rewrite Hobj. unfold FindId, ret.
  cbn [failure with_live docs]. rewrite Hf, Hdoc.
  cbn [Data Name with_ID with_IsNew with_Options NewSession]. rewrite Hdec.
  rewrite MongostoreFacts.clone_restored. cbn.
  rewrite (right_id_L ∅ (∪)). destruct (Options m). reflexivity.
Qed.

Lemma document_Save_then_New_witness :
  New Sample.mongo Sample.request_oid "sid"
      (with_docs (<[Fixture.oid_bytes
                    := mkSessionItem Fixture.oid_bytes "sid|count=1" 1700000000]> ∅)
                 Fixture.db0)
  = Ret (mkSession Fixture.oid Sample.counted Fixture.half_hour false "sid", None)
        (with_docs (<[Fixture.oid_bytes
                      := mkSessionItem Fixture.oid_bytes "sid|count=1" 1700000000]> ∅)
                   Fixture.db0).
Proof.
  exact (document_Save_then_New Sample.mongo Fixture.request_none Sample.request_oid []
           [NewCookie "sid" ("sid|" +:+ Fixture.oid) Fixture.half_hour]
           Sample.doc_counted Sample.doc_counted Fixture.db0
           (with_docs (<[Fixture.oid_bytes
                         := mkSessionItem Fixture.oid_bytes "sid|count=1" 1700000000]> ∅)
                      Fixture.db0)
           "sid|count=1" ("sid|" +:+ Fixture.oid)
           ltac:(cbn; lia) eq_refl eq_refl eq_refl eq_refl eq_refl eq_refl).
Defined.

(** X17.  After a [Save] of a session marked for deletion that returned
    nil, [New] on a request that still carries a cookie for the session's id
    returns a new, empty session with a nil error: the removed document is
    not found and the failure is absorbed. *)
Theorem document_expired_then_New (m : MongoStore) (r r' : Request)
        (w w' : ResponseWriter) (session session' : Session) (world world' : World)
        (c : string) :
  (MaxAge (SessionOptions session) < 0)%Z ->
  Save m r w session world = Ret (w', session', None) world' ->
  RequestCookie r' (Name session) = Done c ->
  DecodeMultiID (Codecs m) (Name session) c = Done (ID session) ->
  New m r' (Name session) world'
  = Ret (mkSession (ID session) ∅ (Options m) true (Name session), None) world'.
Proof.
  intros Hage Hsave Hcookie Hid.
  destruct (MongostoreFacts.document_Save_marked_for_deletion m r w session world Hage)
    as (Hnil & _ & _ & _).
  assert (Hdel : delete m session world = Ret None world').
  { apply Z.ltb_lt in Hage. unfold Save in Hsave. rewrite Hage in Hsave.
    unfold bind in Hsave.
    destruct (delete m session world) as [[e |] w1 | p w1]; try discriminate Hsave.
    inversion Hsave; subst. reflexivity. }
  destruct (Hnil world' Hdel) as (_ & id & Hhex & Hgone).
  destruct (IsObjectIdHex (ID session)) eqn:Hok.
  2: { unfold delete in Hdel. rewrite Hok in Hdel. discriminate Hdel. }
  assert (Hf : failure world' = None).
  { rewrite (MongostoreFacts.document_delete_result m session id world Hok Hhex) in Hdel.
    destruct (failure world) eqn:Hf; [discriminate Hdel |].
    destruct (docs world !! id); [| discriminate Hdel].
    inversion Hdel. exact Hf. }
  destruct (MongostoreFacts.IsObjectIdHex_bytes _ Hok) as (d & Hd & _ & Hobj).
  rewrite Hhex in Hd. inversion Hd; subst d.
  unfold New. rewrite Hcookie, Hid.
  unfold bind, load. cbn [ID with_ID]. rewrite Hok. cbn [negb].
  unfold withClone, bind. rewrite Hobj. unfold FindId, ret.
  cbn [failure with_live docs]. rewrite Hf, Hgone.
  rewrite MongostoreFacts.clone_restored. cbn. destruct (Options m). reflexivity.
Qed.

Lemma document_expired_then_New_witness :
  New Sample.mongo Sample.request_oid "sid" (with_docs ∅ Fixture.db_saved)
  = Ret (mkSession Fixture.oid ∅ Fixture.half_hour true "sid", None)
        (with_docs ∅ Fixture.db_saved).
Proof.
  exact (document_expired_then_New Sample.mongo Fixture.request_none Sample.request_oid
           [] [NewCookie "sid" "" Fixture.expired]
           Fixture.doc_expired Fixture.doc_expired Fixture.db_saved
           (with_docs ∅ Fixture.db_saved) ("sid|" +:+ Fixture.oid)
           ltac:(cbn; lia) eq_refl eq_refl eq_refl).
Defined.

(** X18.  Handed a nil session the constructor panics on it before
    anything else happens.  Otherwise it returns a store with path [/] and
    the given [MaxAge], touches no document, closes the clone it takes and
    sets the shared session to monotonic mode with a pool limit of 1000.  It
    never removes or changes an index: without the TTL flag the indexes are
    as before, and with it at most the one sparse background index on
    [modified], expiring after [maxAge] seconds, is added. *)
Theorem NewMongoStore_returns_store
        (CodecsFromPairs : list string -> gorilla.Codecs)
        (indexCreated : Index -> World -> bool)
        (globalMgoSession : option unit) (maxAge : Z) (ensureTTL : bool)
        (keyPairs : list string) (world : World) :
  match globalMgoSession with
  | None =>
      NewMongoStore CodecsFromPairs indexCreated None maxAge ensureTTL keyPairs world
      = Panicked NilDereference world
  | Some _ =>
      exists world',
        NewMongoStore CodecsFromPairs indexCreated globalMgoSession maxAge ensureTTL
                      keyPairs world
        = Ret (mkMongoStore (CodecsFromPairs keyPairs)
                            (mkOptions "/" "" maxAge false false))
              world'
        /\ docs world' = docs world
        /\ live world' = live world
        /\ failure world' = failure world
        /\ monotonic world' = true
        /\ poolLimit world' = 1000%Z
        /\ (ensureTTL = false -> indexes world' = indexes world)
        /\ (indexes world' = indexes world
            \/ indexes world'
               = indexes world ++ [mkIndex ["modified"] true true
                                           (wrap64 (wrap64 maxAge * 1000000000))])
  end.
Proof.
  destruct globalMgoSession as [[] |]; [| reflexivity].
  unfold NewMongoStore, bind, withClone, bind.
  destruct ensureTTL.
  - unfold EnsureIndex, ret. cbn [failure with_live].
    destruct (failure world) as [e |] eqn:Hf.
    + eexists. split; [reflexivity |]. cbn.
      do 5 (split; [first [reflexivity | exact Hf] |]).
      split; [discriminate | left; reflexivity].
    + match goal with
      | |- context [indexCreated ?ix ?w] => destruct (indexCreated ix w)
      end;
        eexists; (split; [reflexivity |]); cbn;
        (do 5 (split; [first [reflexivity | exact Hf] |]));
        (split; [discriminate |]); [right | left]; reflexivity.
  - unfold ret. eexists. split; [reflexivity |]. cbn.
    do 5 (split; [reflexivity |]). split; [reflexivity | left; reflexivity].
Qed.

End MongostoreMore.

(** ** Further facts about package sessions *)
Module SessionsMore.
Import Sessions.

Section Wrapper.

Context {W : Type}.
Variable logPrintf : error -> M W unit.

(** [GetSession] on a wrapper that holds a session returns it without a
    call. *)
Lemma GetSession_held (s : Session W) g (w : W) :
  session s = Some g -> GetSession logPrintf s w = Ret (s, Some g) w.
Proof. intros H. unfold GetSession. rewrite H. reflexivity. Qed.

(** What [GetSession] returns is what the wrapper holds afterwards. *)
Lemma GetSession_result (s s' : Session W) g (w w' : W) :
  GetSession logPrintf s w = Ret (s', g) w' ->
  session s' = g
  /\ name s' = name s /\ request s' = request s /\ store s' = store s
  /\ writer s' = writer s /\ valueChanged s' = valueChanged s
  /\ (forall g0, session s = Some g0 -> s' = s /\ w' = w).
Proof.
  unfold GetSession. destruct (session s) as [g0 |] eqn:Hs.
  - unfold ret. intros H. inversion H; subst. repeat split; try assumption.
  - unfold bind.
    destruct (StoreGet (store s) (request s) (name s) w) as [[g1 err] w1 | p w1];
      [| discriminate].
    destruct err as [e |].
    + destruct (logPrintf e w1); [| discriminate].
      unfold ret. intros H. inversion H; subst. repeat split; discriminate.
    + unfold ret. intros H. inversion H; subst. repeat split; discriminate.
Qed.

(** X19.  Lazy resolution.  Once [GetSession] has returned a session, the
    wrapper holds it: a further [GetSession] returns the same session and
    leaves wrapper and world untouched, so the store is asked at most once
    per wrapper. *)
Theorem GetSession_is_cached (s s' : Session W) (g : gorilla.Session) (w w' : W) :
  GetSession logPrintf s w = Ret (s', Some g) w' ->
  session s' = Some g
  /\ GetSession logPrintf s' w' = Ret (s', Some g) w'.
Proof.
  intros H. apply GetSession_result in H as (Hs & _).
  split; [exact Hs |]. apply GetSession_held. exact Hs.
Qed.

(** X20.  [Set] then [Get].  On a store whose [Save] keeps the values, the
    wrapper returned by [Set] holds a session in which the key maps to the
    value, and [Get] of the key returns the value without a call, whether
    the save that [Set] runs succeeded or not; the flag is down afterwards
    exactly when that save returned nil. *)
Theorem Set_then_Get (s s' : Session W) (key val : value) (w w' : W) :
  Terms.keeps_values (store s) ->
  Set_ logPrintf s key val w = Ret s' w' ->
  Get logPrintf s' key w' = Ret (s', Some val) w'
  /\ exists g w0 wr g' e,
       session s' = Some g'
       /\ gorilla.Values g' = <[key := val]> (gorilla.Values g)
       /\ StoreSave (store s) (request s) (writer s)
                    (gorilla.with_Values (<[key := val]> (gorilla.Values g)) g) w0
          = Ret (wr, g', e) w'
       /\ valueChanged s' = notNil e.
Proof.
  intros Hkeep. unfold Set_, bind.
  destruct (GetSession logPrintf s w) as [[s1 g] w1 | p w1] eqn:Hget; [| discriminate].
  apply GetSession_result in Hget as (Hs1 & _ & Hr & Hst & Hw & _).
  destruct g as [g |]; [| discriminate]. cbn [deref ret].
  unfold Save. cbn [valueChanged with_valueChanged]. unfold bind.
  cbn [GetSession session with_session with_valueChanged ret deref
       store request writer].
  destruct (StoreSave (store s1) (request s1) (writer s1)
                      (gorilla.with_Values (<[key := val]> (gorilla.Values g)) g) w1)
    as [[[wr g'] e] w2 | p w2] eqn:Hsave; [| discriminate].
  pose proof Hsave as Hvals. rewrite Hst in Hvals. apply Hkeep in Hvals.
  cbn [gorilla.Values gorilla.with_Values] in Hvals.
  rewrite Hst, Hr, Hw in Hsave.
  assert (Hlook : gorilla.Values g' !! key = Some val)
    by (rewrite Hvals; apply lookup_insert_eq).
  destruct e as [e |]; unfold ret; intros H; inversion H; subst.
  - split.
    + unfold Get, bind. cbn [GetSession session with_session with_writer ret deref].
      rewrite Hlook. reflexivity.
    + exists g, w1, wr, g', (Some e). repeat split; assumption.
  - split.
    + unfold Get, bind.
      cbn [GetSession session with_session with_writer with_valueChanged ret deref].
      rewrite Hlook. reflexivity.
    + exists g, w1, wr, g', None. repeat split; assumption.
Qed.

(** X21.  [Delete] then [Get].  [Delete] raises the flag, does not save,
    and a [Get] of the key afterwards finds nothing; on a wrapper that
    already holds its session [Delete] leaves the world untouched. *)
Theorem Delete_then_Get (s s' : Session W) (key : value) (w w' : W) :
  Delete logPrintf s key w = Ret s' w' ->
  Get logPrintf s' key w' = Ret (s', None) w'
  /\ valueChanged s' = true
  /\ writer s' = writer s
  /\ (forall g, session s = Some g -> w' = w).
Proof.
  unfold Delete, bind.
  destruct (GetSession logPrintf s w) as [[s1 g] w1 | p w1] eqn:Hget; [| discriminate].
  apply GetSession_result in Hget as (Hs1 & _ & _ & _ & Hw & _ & Hheld).
  destruct g as [g |]; [| discriminate]. cbn [deref ret].
  unfold ret. intros H. inversion H; subst. repeat split.
  - unfold Get, bind.
    cbn [GetSession session with_session with_valueChanged ret deref
         gorilla.Values gorilla.with_Values].
    rewrite lookup_delete_eq. reflexivity.
  - exact Hw.
  - intros g0 Hg0. apply (Hheld g0 Hg0).
Qed.

(** X22.  [Options] replaces the options of the held session and does not
    raise the flag: with the flag down, a [Save] right after it returns nil
    without reaching the store, so the new options, a negative [MaxAge]
    included, take effect only with a later change. *)
Theorem SetOptions_does_not_mark (s s' : Session W) (options : Options) (w w' : W) :
  SetOptions logPrintf s options w = Ret s' w' ->
  valueChanged s' = valueChanged s
  /\ (exists g, session s' = Some g
                 /\ gorilla.SessionOptions g = toGorilla options)
  /\ (valueChanged s = false -> Save logPrintf s' w' = Ret (s', None) w').
Proof.
  unfold SetOptions, bind.
  destruct (GetSession logPrintf s w) as [[s1 g] w1 | p w1] eqn:Hget; [| discriminate].
  apply GetSession_result in Hget as (Hs1 & _ & _ & _ & _ & Hv & _).
  destruct g as [g |]; [| discriminate]. cbn [deref ret].
  unfold ret. intros H. inversion H; subst. split; [exact Hv |]. split.
  - eexists. split; reflexivity.
  - intros Hdown. unfold Save. cbn [valueChanged with_session].
    rewrite Hv, Hdown. reflexivity.
Qed.

(** [DeleteAll] on a wrapper that holds its session: the keys listed are
    gone, the others are as they were, and the world is untouched. *)
Lemma DeleteAll_held (keys : list value) :
  forall (s : Session W) (g : gorilla.Session) (w : W),
    session s = Some g ->
    exists s' g',
      DeleteAll logPrintf s keys w = Ret s' w
      /\ session s' = Some g'
      /\ (forall k, gorilla.Values g' !! k
                    = if decide (k ∈ keys) then None else gorilla.Values g !! k)
      /\ (keys = [] -> s' = s)
      /\ (keys <> [] -> valueChanged s' = true).
Proof.
  induction keys as [| key rest IH]; intros s g w Hs.
  - exists s, g. cbn [DeleteAll]. unfold ret.
    split; [reflexivity |]. split; [exact Hs |]. split; [| split].
    + intros k. destruct (decide (k ∈ [])) as [Hin | _]; [| reflexivity].
      apply elem_of_nil in Hin. contradiction.
    + reflexivity.
    + intros H. contradiction.
  - cbn [DeleteAll]. unfold bind, Delete, bind.
    rewrite (GetSession_held s g w Hs). cbn [deref ret]. unfold ret.
    destruct (IH (with_valueChanged true
                    (with_session
                       (Some (gorilla.with_Values (base.delete key (gorilla.Values g)) g))
                       s))
                 (gorilla.with_Values (base.delete key (gorilla.Values g)) g) w eq_refl)
      as (s' & g' & Hrun & Hs' & Hk & Hnil & Hcons).
    exists s', g'. split; [exact Hrun |]. split; [exact Hs' |]. split; [| split].
    + intros k. rewrite (Hk k). cbn [gorilla.Values gorilla.with_Values].
      destruct (decide (k ∈ rest)) as [Hin | Hout].
      * rewrite decide_True by (right; exact Hin). reflexivity.
      * destruct (decide (k = key)) as [-> | Hne].
        -- rewrite decide_True by left. apply lookup_delete_eq.
        -- rewrite decide_False.
           ++ apply lookup_delete_ne. congruence.
           ++ intros Hin. apply elem_of_cons in Hin as [H | H]; contradiction.
    + discriminate.
    + intros _. destruct rest as [| k0 rest'].
      * rewrite (Hnil eq_refl). reflexivity.
      * apply Hcons. discriminate.
Qed.

(** X23.  [Clear] leaves the held session without any value, so that [Get]
    of any key finds nothing, and it does not save; on a wrapper that
    already holds its session the world is untouched, and a session that had
    no value keeps its flag. *)
Theorem Clear_empties (s s' : Session W) (w w' : W) :
  Clear logPrintf s w = Ret s' w' ->
  (exists g', session s' = Some g' /\ gorilla.Values g' = ∅)
  /\ (forall key, Get logPrintf s' key w' = Ret (s', None) w')
  /\ (forall g, session s = Some g ->
                w' = w /\ (gorilla.Values g = ∅ -> s' = s)).
Proof.
  unfold Clear, bind.
  destruct (GetSession logPrintf s w) as [[s1 g] w1 | p w1] eqn:Hget; [| discriminate].
  apply GetSession_result in Hget as (Hs1 & _ & _ & _ & _ & _ & Hheld).
  destruct g as [g |]; [| discriminate]. cbn [deref ret].
  destruct (DeleteAll_held (map fst (map_to_list (gorilla.Values g))) s1 g w1 Hs1)
    as (s2 & g2 & Hrun & Hs2 & Hk & Hnil & _).
  rewrite Hrun. intros H. inversion H; subst s2 w1.
  assert (Hempty : gorilla.Values g2 = ∅).
  { apply map_empty. intros k. rewrite (Hk k).
    destruct (decide (k ∈ map fst (map_to_list (gorilla.Values g)))) as [_ | Hout];
      [reflexivity |].
    destruct (gorilla.Values g !! k) as [v |] eqn:Hv; [| reflexivity].
    exfalso. apply Hout. apply list_elem_of_fmap. exists (k, v).
    split; [reflexivity |]. apply elem_of_map_to_list. exact Hv. }
  split; [exists g2; split; assumption |]. split.
  - intros key. unfold Get, bind. rewrite (GetSession_held s' g2 w' Hs2).
    cbn [deref ret]. rewrite Hempty, lookup_empty. reflexivity.
  - intros g0 Hg0. destruct (Hheld g0 Hg0) as [-> ->]. split; [reflexivity |].
    intros Hnone. rewrite Hs1 in Hg0. inversion Hg0; subst g0.
    apply Hnil. rewrite Hnone, map_to_list_empty. reflexivity.
Qed.

(** X24.  When the store's [Get] hands back no session, the wrapper holds
    none: [Get], [Set], [Delete], [Clear] and [Options] panic on the nil
    pointer, and so does [Save] when the flag is up; with the flag down
    [Save] returns nil without asking the store. *)
Theorem nil_session_panics (s : Session W) (key val : value) (options : Options)
        (err : option error) (w w1 w2 : W) :
  session s = None ->
  StoreGet (store s) (request s) (name s) w = Ret (None, err) w1 ->
  match err with
  | Some e => logPrintf e w1 = Ret tt w2
  | None => w2 = w1
  end ->
  Get logPrintf s key w = Panicked NilDereference w2
  /\ Set_ logPrintf s key val w = Panicked NilDereference w2
  /\ Delete logPrintf s key w = Panicked NilDereference w2
  /\ Clear logPrintf s w = Panicked NilDereference w2
  /\ SetOptions logPrintf s options w = Panicked NilDereference w2
  /\ (valueChanged s = true -> Save logPrintf s w = Panicked NilDereference w2)
  /\ (valueChanged s = false -> Save logPrintf s w = Ret (s, None) w).
Proof.
  intros Hs Hget Hlog.
  assert (Hnone : GetSession logPrintf s w = Ret (with_session None s, None) w2).
  { unfold GetSession. rewrite Hs. unfold bind. rewrite Hget.
    destruct err as [e |]; [rewrite Hlog | subst w2]; reflexivity. }
  repeat split.
  - unfold Get, bind. rewrite Hnone. reflexivity.
  - unfold Set_, bind. rewrite Hnone. reflexivity.
  - unfold Delete, bind. rewrite Hnone. reflexivity.
  - unfold Clear, bind. rewrite Hnone. reflexivity.
  - unfold SetOptions, bind. rewrite Hnone. reflexivity.
  - intros Hup. unfold Save. rewrite Hup. unfold bind. rewrite Hnone. reflexivity.
  - intros Hdown. unfold Save. rewrite Hdown. reflexivity.
Qed.

End Wrapper.

Lemma nil_session_panics_witness :
  Get Fixture.quiet Sample.wrapper_refused (VString "count") tt
  = Panicked NilDereference tt
  /\ Save Fixture.quiet Sample.wrapper_refused tt = Panicked NilDereference tt.
Proof.
  destruct (nil_session_panics Fixture.quiet Sample.wrapper_refused
              (VString "count") (VInt 1) (mkOptions "/" "" 0 false false)
              (Some (ErrCodec "sessions: invalid character in cookie name")) tt tt tt
              eq_refl eq_refl eq_refl) as (Hget & _ & _ & _ & _ & Hsave & _).
  split; [exact Hget | exact (Hsave eq_refl)].
Defined.

(** Both stores of the repository hand back the values they were given. *)
Lemma rediStore_keeps_values (s : Redistore.RediStore) :
  Redistore.connected s = true -> Terms.keeps_values (rediStore s).
Proof.
  intros Hs r w g world w' g' e world' H. cbn in H.
  destruct (RedistoreMore.cache_Save_outcome s r w g world Hs)
    as (w1 & g1 & e1 & world1 & Hsave & (_ & Hv & _) & _).
  rewrite Hsave in H. inversion H; subst. exact Hv.
Qed.

Lemma mongoStore_keeps_values (m : Mongostore.MongoStore) :
  Terms.keeps_values (mongoStore m).
Proof.
  intros r w g world w' g' e world' H. cbn in H.
  destruct (MongostoreMore.document_Save_outcome m r w g world)
    as (w1 & g1 & e1 & world1 & Hsave & (_ & Hv & _) & _).
  rewrite Hsave in H. inversion H; subst. exact Hv.
Qed.

Lemma GetSession_is_cached_witness :
  session Sample.wrapper_cached = Some Sample.saved_counted
  /\ GetSession Fixture.quiet Sample.wrapper_cached Fixture.world_down
     = Ret (Sample.wrapper_cached, Some Sample.saved_counted) Fixture.world_down.
Proof.
  exact (GetSession_is_cached Fixture.quiet Sample.wrapper_cached Sample.wrapper_cached
           Sample.saved_counted Fixture.world_down Fixture.world_down eq_refl).
Defined.

Lemma Set_then_Get_witness :
  exists s' w',
    Set_ Fixture.quiet Sample.wrapper_failing (VString "count") (VInt 1) tt = Ret s' w'
    /\ Get Fixture.quiet s' (VString "count") w' = Ret (s', Some (VInt 1)) w'
    /\ valueChanged s' = true.
Proof.
  eexists _, _. split; [reflexivity |].
  split; [| reflexivity].
  refine (proj1 (Set_then_Get Fixture.quiet Sample.wrapper_failing _
                   (VString "count") (VInt 1) tt _ _ eq_refl)).
  intros r w g world w' g' e world' H. cbn in H. inversion H. reflexivity.
Defined.

Lemma Delete_then_Get_witness :
  exists s',
    Delete Fixture.quiet Sample.wrapper_cached (VString "count") Fixture.world_down
    = Ret s' Fixture.world_down
    /\ Get Fixture.quiet s' (VString "count") Fixture.world_down
       = Ret (s', None) Fixture.world_down
    /\ valueChanged s' = true.
Proof.
  eexists. split; [reflexivity |].
  destruct (Delete_then_Get Fixture.quiet Sample.wrapper_cached _ (VString "count")
              Fixture.world_down Fixture.world_down eq_refl) as (Hget & Hflag & _).
  split; [exact Hget | exact Hflag].
Defined.

Lemma Clear_empties_witness :
  Clear Fixture.quiet Sample.wrapper_held tt
  = Ret (mkSession "sid" Fixture.request_none Sample.failing
                   (Some (gorilla.mkSession "IDONE" ∅ Fixture.half_hour true "sid"))
                   true [])
        tt
  /\ exists g',
       Some (gorilla.mkSession "IDONE" ∅ Fixture.half_hour true "sid") = Some g'
       /\ gorilla.Values g' = ∅.
Proof.
  assert (H : Clear Fixture.quiet Sample.wrapper_held tt
              = Ret (mkSession "sid" Fixture.request_none Sample.failing
                               (Some (gorilla.mkSession "IDONE" ∅ Fixture.half_hour
                                                        true "sid"))
                               true [])
                    tt)
    by (vm_compute; reflexivity).
  split; [exact H |].
  exact (proj1 (Clear_empties Fixture.quiet Sample.wrapper_held _ tt tt H)).
Defined.

Lemma SetOptions_does_not_mark_witness :
  exists s',
    SetOptions Fixture.quiet Sample.wrapper_cached
               (mkOptions "/" "" (-1) false false) Fixture.world_saved
    = Ret s' Fixture.world_saved
    /\ Save Fixture.quiet s' Fixture.world_saved = Ret (s', None) Fixture.world_saved.
Proof.
  eexists. split; [reflexivity |].
  exact (proj2 (proj2 (SetOptions_does_not_mark Fixture.quiet Sample.wrapper_cached _
                         (mkOptions "/" "" (-1) false false)
                         Fixture.world_saved Fixture.world_saved eq_refl))
               eq_refl).
Defined.

(** X25.  After [Options] on the document store, every session [New]
    returns carries the options given, field by field; the codecs are the
    ones the store had. *)
Theorem mongoStore_Options_reach_New (c : Mongostore.MongoStore) (options : Options)
        (r : gorilla.Request) (name : string) (world : Mongostore.World) :
  Mongostore.Codecs (mongoStore_Options c options) = Mongostore.Codecs c
  /\ exists session,
       Mongostore.New (mongoStore_Options c options) r name world
       = Ret (session, None) world
       /\ gorilla.SessionOptions session
          = gorilla.mkOptions (Path options) (Domain options) (MaxAge options)
                              (Secure options) (HttpOnly options).
Proof.
  split; [reflexivity |].
  destruct (MongostoreMore.document_New_outcome (mongoStore_Options c options)
              r name world) as (session & H & _ & Ho & _).
  exists session. split; [exact H | exact Ho].
Qed.

End SessionsMore.
